(** * PlaySphere: authentication and session lifecycle

    A shallow embedding of the session handlers of the PlaySphere backend
    ([src/controllers/user.controllers.js], the [verifyJWT] middleware, the
    token methods of the User model, [asyncHandler] and [errorHandler]),
    followed by the properties of login, refresh, logout and request
    authentication.

    Handlers are [async] functions that talk to MongoDB through Mongoose.
    They are embedded as programs of a small monad [Db] whose actions are the
    store operations the handlers await; [run] executes a program against a
    store, [step] executes it up to its next await, which is what lets two
    requests be interleaved. *)

From Stdlib Require Import ZArith Lia Ascii.
From stdpp Require Import base option strings list gmap.

Open Scope Z_scope.
Open Scope string_scope.

(** ** JavaScript values *)

(** A string-valued property that may be [undefined].  [truthy] is the
    JavaScript truth value: [undefined] and the empty string are falsy. *)
Definition truthy (v : option string) : bool :=
  match v with
  | Some s => negb (String.eqb s "")
  | None => false
  end.

(** [a || b] on such values. *)
Definition js_or (a b : option string) : option string :=
  if truthy a then a else b.

(** [a !== b] on such values (strict inequality of strings / undefined). *)
Definition strict_ne (a b : option string) : bool :=
  match a, b with
  | Some x, Some y => negb (String.eqb x y)
  | None, None => false
  | _, _ => true
  end.

(** [s.replace(pat, "")]: the first occurrence of [pat] is removed. *)
Fixpoint remove_first (pat s : string) : string :=
  if String.prefix pat s then String.substring (String.length pat) (String.length s - String.length pat)%nat s
  else match s with
       | EmptyString => EmptyString
       | String c s' => String c (remove_first pat s')
       end.

(** ** The User collection

    The fields of [userSchema] that the session code reads or writes.
    [password] and [refreshToken] are optional: neither is [required] in the
    schema, and [select("-password -refreshToken")] yields a document without
    them.  (avatar, coverImage, watchHistory and the timestamps are not
    touched by the session code and are left out.) *)
Record User := mkUser {
  _id : string;
  username : string;
  email : string;
  fullname : string;
  password : option string;
  refreshToken : option string
}.

(** The collection, in natural (insertion) order. *)
Definition Store := list User.

(** [User.findById(id)] *)
Definition findById (id : string) (s : Store) : option User :=
  List.find (fun u => String.eqb (_id u) id) s.

(** The setters [lowercase: true] and [trim: true] that [userSchema] declares
    on [username] and [email].  A string is a sequence of code units below
    256: [toLowerCase] moves the capital letters (A to Z, and the accented
    capitals 192 to 222 other than the multiplication sign 215) down by 32,
    and [trim] removes white space (9 to 13, 32 and 160) at both ends. *)
Definition lower_unit (c : ascii) : ascii :=
  let n := N_of_ascii c in
  if ((65 <=? n) && (n <=? 90) || (192 <=? n) && (n <=? 222) && negb (n =? 215))%N
  then ascii_of_N (n + 32)
  else c.

Fixpoint toLowerCase (s : string) : string :=
  match s with
  | EmptyString => EmptyString
  | String c rest => String (lower_unit c) (toLowerCase rest)
  end.

Definition is_whitespace (c : ascii) : bool :=
  let n := N_of_ascii c in
  ((9 <=? n) && (n <=? 13) || (n =? 32) || (n =? 160))%N.

Fixpoint trimStart (s : string) : string :=
  match s with
  | EmptyString => EmptyString
  | String c rest => if is_whitespace c then trimStart rest else s
  end.

Fixpoint trimEnd (s : string) : string :=
  match s with
  | EmptyString => EmptyString
  | String c rest =>
      match trimEnd rest with
      | EmptyString => if is_whitespace c then EmptyString else String c EmptyString
      | rest' => String c rest'
      end
  end.

Definition trim (s : string) : string := trimEnd (trimStart s).

(** Mongoose runs a path's setters on the value of a query condition as it
    does on a value to be stored, the last declared first. *)
Definition schema_setters (v : string) : string := toLowerCase (trim v).

(** One clause [{field: value}] of a query on [username] or [email]: the
    value goes through the setters of the path and is then compared with the
    stored field; a clause whose value is [undefined] selects no document
    (both fields are [required]). *)
Definition clause (v : option string) (field : string) : bool :=
  match v with
  | Some x => String.eqb field (schema_setters x)
  | None => false
  end.

(** [User.findOne({ $or: [{ username }, { email }] })] *)
Definition findOne (uname mail : option string) (s : Store) : option User :=
  List.find (fun u => clause uname (username u) || clause mail (email u)) s.

Definition set_refreshToken (tok : option string) (u : User) : User :=
  mkUser (_id u) (username u) (email u) (fullname u) (password u) tok.

(** The write behind [user.save()] after [user.refreshToken = tok]: the
    first document with that id gets its refresh-token slot replaced. *)
Fixpoint updateRefreshToken (id : string) (tok : option string) (s : Store) : Store :=
  match s with
  | [] => []
  | u :: rest =>
      if String.eqb (_id u) id then set_refreshToken tok u :: rest
      else u :: updateRefreshToken id tok rest
  end.

(** [.select("-password -refreshToken")] *)
Definition select_public (u : User) : User :=
  mkUser (_id u) (username u) (email u) (fullname u) None None.

(** ** Thrown values

    [ApiError] lives in utils/apiError.js.  The handlers construct it with a
    [statusCode] and a [message]; its [data] is [null], its [success] is
    [false] and its [errors] are the empty array. *)
Inductive Thrown :=
| ApiError (statusCode : Z) (message : string)
| MongooseError (message : string)
| JsError (name message : string).

(** ** Programs over the store *)

Inductive Db (A : Type) : Type :=
| Ret (a : A)
| Throw (e : Thrown)
| FindById (id : string) (k : option User -> Db A)
| FindOne (uname mail : option string) (k : option User -> Db A)
| UpdateRefreshToken (id : string) (tok : option string) (k : option User -> Db A).

Arguments Ret {A} a.
Arguments Throw {A} e.
Arguments FindById {A} id k.
Arguments FindOne {A} uname mail k.
Arguments UpdateRefreshToken {A} id tok k.

Fixpoint bind {A B} (m : Db A) (f : A -> Db B) : Db B :=
  match m with
  | Ret a => f a
  | Throw e => Throw e
  | FindById id k => FindById id (fun r => bind (k r) f)
  | FindOne u e k => FindOne u e (fun r => bind (k r) f)
  | UpdateRefreshToken id tok k => UpdateRefreshToken id tok (fun r => bind (k r) f)
  end.

(** [try { m } catch (error) { h error }] *)
Fixpoint try_catch {A} (m : Db A) (h : Thrown -> Db A) : Db A :=
  match m with
  | Ret a => Ret a
  | Throw e => h e
  | FindById id k => FindById id (fun r => try_catch (k r) h)
  | FindOne u e k => FindOne u e (fun r => try_catch (k r) h)
  | UpdateRefreshToken id tok k => UpdateRefreshToken id tok (fun r => try_catch (k r) h)
  end.

#[global] Instance Db_ret : MRet Db := fun _ a => Ret a.
#[global] Instance Db_bind : MBind Db := fun _ _ f m => bind m f.

Inductive Outcome (A : Type) : Type :=
| Returned (a : A)
| Raised (e : Thrown).

Arguments Returned {A} a.
Arguments Raised {A} e.

(** Running a program to completion against a store. *)
Fixpoint run {A} (m : Db A) (s : Store) : Outcome A * Store :=
  match m with
  | Ret a => (Returned a, s)
  | Throw e => (Raised e, s)
  | FindById id k => run (k (findById id s)) s
  | FindOne u e k => run (k (findOne u e s)) s
  | UpdateRefreshToken id tok k =>
      let s' := updateRefreshToken id tok s in
      run (k (findById id s')) s'
  end.

(** Running a program up to its next await: one store operation, then the
    synchronous code that follows it. *)
Definition step {A} (m : Db A) (s : Store) : Db A * Store :=
  match m with
  | FindById id k => (k (findById id s), s)
  | FindOne u e k => (k (findOne u e s), s)
  | UpdateRefreshToken id tok k =>
      let s' := updateRefreshToken id tok s in (k (findById id s'), s')
  | _ => (m, s)
  end.

Definition finished {A} (m : Db A) : option (Outcome A) :=
  match m with
  | Ret a => Some (Returned a)
  | Throw e => Some (Raised e)
  | _ => None
  end.

(** The number of awaits a program goes through from a store. *)
Fixpoint awaits {A} (m : Db A) (s : Store) : nat :=
  match m with
  | Ret _ | Throw _ => O
  | FindById id k => S (awaits (k (findById id s)) s)
  | FindOne u e k => S (awaits (k (findOne u e s)) s)
  | UpdateRefreshToken id tok k =>
      let s' := updateRefreshToken id tok s in
      S (awaits (k (findById id s')) s')
  end.

(** The program a finished request has become. *)
Definition settled {A} (o : Outcome A) : Db A :=
  match o with
  | Returned a => Ret a
  | Raised e => Throw e
  end.

(** Two requests in flight: the schedule says whose turn it is at each
    step of the event loop ([true] for the first request). *)
Fixpoint interleave {A} (sched : list bool) (p q : Db A) (s : Store)
  : Db A * Db A * Store :=
  match sched with
  | [] => (p, q, s)
  | true :: rest => let '(p', s') := step p s in interleave rest p' q s'
  | false :: rest => let '(q', s') := step q s in interleave rest p q' s'
  end.

(** The schedule of two three-step requests in which each has made its first
    read before the other makes its write. *)
Definition both_read_first : list bool := [true; false; true; true; false; false].

(** The schedules of two three-step requests (a read followed by a check, a
    read, a save) in which neither request saves before the other has made
    its first read.  The scan carries the number of steps each request has
    made so far; each request makes exactly three. *)
Fixpoint reads_before_saves (a b : nat) (sched : list bool) : bool :=
  match sched with
  | [] => (a =? 3)%nat && (b =? 3)%nat
  | true :: rest =>
      (a <? 3)%nat && (negb (a =? 2)%nat || (0 <? b)%nat) && reads_before_saves (S a) b rest
  | false :: rest =>
      (b <? 3)%nat && (negb (b =? 2)%nat || (0 <? a)%nat) && reads_before_saves a (S b) rest
  end.

Definition each_reads_before_the_other_saves (sched : list bool) : bool :=
  reads_before_saves 0 0 sched.

(** Whose save comes last in a schedule. *)
Definition saved_last {A} (sched : list bool) (a b : A) : A :=
  match last sched with
  | Some true => a
  | _ => b
  end.

(** ** Configuration, requests and responses *)

(** [process.env].  The expiries are kept in seconds (the source writes
    them as time spans such as [1d]); an unset variable is [None]. *)
Record Env := mkEnv {
  ACCESS_TOKEN_SECRET : option string;
  ACCESS_TOKEN_EXPIRY : option Z;
  REFRESH_TOKEN_SECRET : option string;
  REFRESH_TOKEN_EXPIRY : option Z;
  NODE_ENV : option string
}.

(** [req]: parsed cookies, parsed body, headers, and [req.user]. *)
Record Request := mkRequest {
  cookies : gmap string string;
  body : gmap string string;
  headers : gmap string string;
  user : option User
}.

Definition attach_user (u : User) (req : Request) : Request :=
  mkRequest (cookies req) (body req) (headers req) (Some u).

Record CookieOptions := mkOptions { httpOnly : bool; secure : bool }.

(** The [data] member of an [ApiResponse]. *)
Inductive Data :=
| LoginData (profile : User) (accessToken refreshToken : string)
| TokenData (accessToken refreshToken : string)
| UserData (profile : User)
| NoData.

(** What is sent: an [ApiResponse], or the error envelope of
    [errorHandler], [{ statusCode, data: null, success: false, errors: [] }].
    The envelope is the spread [{...error}] of an [ApiError], which copies
    the own enumerable properties: the [message] of an error (and its
    [stack]) is not one of them, so the envelope carries no message. *)
Inductive Json :=
| ApiResponse (statusCode : Z) (data : Data) (message : string)
| ErrorEnvelope (statusCode : Z).

Record Response := mkResponse {
  status : Z;
  set_cookies : list (string * string * CookieOptions);
  cleared_cookies : list (string * CookieOptions);
  json : Json
}.

Definition cookie_options (env : Env) : CookieOptions :=
  mkOptions true (bool_decide (NODE_ENV env = Some "production")).

(** ** jsonwebtoken and bcrypt

    The two libraries are interfaces here.  A token is a string; the codec
    serialises a payload under a key, parses a string back, and checks a
    signature.  [jwt_sign] and [jwt_verify] below are the library's
    algorithms on top of these primitives. *)
Record Payload := mkPayload {
  tok_id : string;
  tok_email : option string;
  tok_username : option string;
  tok_fullname : option string;
  iat : Z;
  exp : Z
}.

Class JwtCodec := {
  jwt_encode : Payload -> string -> string;
  jwt_decode : string -> option Payload;
  jwt_signature_ok : string -> string -> bool
}.

(** What a codec owes its users: a token parses back to the payload it was
    made from and carries a good signature for the key it was made with. *)
Class JwtLawful `{JwtCodec} : Prop := {
  decode_encode : forall p key, jwt_decode (jwt_encode p key) = Some p;
  signature_encode : forall p key, jwt_signature_ok (jwt_encode p key) key = true;
  encode_nonempty : forall p key, jwt_encode p key <> ""
}.

Class Bcrypt := { bcrypt_compare : string -> string -> bool }.

Section Handlers.

Context `{JwtCodec} `{Bcrypt}.
Variable env : Env.

(** [jwt.sign(claims, secret, { expiresIn })] at clock second [now]: the
    library stamps [iat] with the clock and [exp] with [iat] plus the time
    span.  (A request is taken to be handled within one clock second.) *)
Definition jwt_sign (id : string) (mail uname fname : option string)
    (secret : option string) (expiresIn : option Z) (now : Z) : Db string :=
  match secret with
  | Some key =>
      if truthy secret then
        match expiresIn with
        | Some ttl => Ret (jwt_encode (mkPayload id mail uname fname now (now + ttl)) key)
        | None => Throw (JsError "Error" "expiresIn should be a number of seconds or string representing a timespan")
        end
      else Throw (JsError "Error" "secretOrPrivateKey must have a value")
  | None => Throw (JsError "Error" "secretOrPrivateKey must have a value")
  end.

(** [jwt.verify(token, secret)] at clock second [now]: parse, check the
    signature, check the expiry. *)
Definition jwt_verify (token : string) (secret : option string) (now : Z) : Db Payload :=
  match jwt_decode token with
  | None => Throw (JsError "JsonWebTokenError" "jwt malformed")
  | Some p =>
      match secret with
      | Some key =>
          if negb (truthy secret) then
            Throw (JsError "JsonWebTokenError" "secret or public key must be provided")
          else if negb (jwt_signature_ok token key) then
            Throw (JsError "JsonWebTokenError" "invalid signature")
          else if (exp p <=? now)%Z then
            Throw (JsError "TokenExpiredError" "jwt expired")
          else Ret p
      | None => Throw (JsError "JsonWebTokenError" "secret or public key must be provided")
      end
  end.

(** [userSchema.methods.isPasswordCorrect] *)
Definition isPasswordCorrect (u : User) (pw : string) : Db bool :=
  match password u with
  | Some hashed => Ret (bcrypt_compare pw hashed)
  | None => Throw (JsError "Error" "data and hash arguments required")
  end.

(** [userSchema.methods.generateAccessToken] *)
Definition generateAccessToken (u : User) (now : Z) : Db string :=
  jwt_sign (_id u) (Some (email u)) (Some (username u)) (Some (fullname u))
    (ACCESS_TOKEN_SECRET env) (ACCESS_TOKEN_EXPIRY env) now.

(** [userSchema.methods.generateRefreshToken] *)
Definition generateRefreshToken (u : User) (now : Z) : Db string :=
  jwt_sign (_id u) None None None
    (REFRESH_TOKEN_SECRET env) (REFRESH_TOKEN_EXPIRY env) now.

(** [user.refreshToken = tok; await user.save({ validateBeforeSave: false })] *)
Definition save_refreshToken (u : User) (tok : string) : Db unit :=
  UpdateRefreshToken (_id u) (Some tok) (fun r =>
    match r with
    | Some _ => Ret tt
    | None => Throw (MongooseError "DocumentNotFoundError")
    end).

Definition generateAccessAndRefreshToken (userId : string) (now : Z)
  : Db (string * string) :=
  try_catch
    (found ← FindById userId Ret;
     match found with
     | None => Throw (ApiError 404 "User not found during token generation")
     | Some u =>
         accessToken ← generateAccessToken u now;
         newRefreshToken ← generateRefreshToken u now;
         _ ← save_refreshToken u newRefreshToken;
         Ret (accessToken, newRefreshToken)
     end)
    (fun _ => Throw (ApiError 500 "Something went wrong while generating access and refresh tokens")).

Definition loginUser (req : Request) (now : Z) : Db Response :=
  let mail := body req !! "email" in
  let uname := body req !! "username" in
  let pw := body req !! "password" in
  if negb (truthy mail) || negb (truthy pw) then
    Throw (ApiError 400 "Email is required")
  else
    found ← FindOne uname mail Ret;
    match found with
    | None => Throw (ApiError 404 "User not found")
    | Some u =>
        isPasswordValid ← isPasswordCorrect u (default "" pw);
        if negb isPasswordValid then
          Throw (ApiError 400 "Invalid user credentials")
        else
          '(accessToken, newRefreshToken) ← generateAccessAndRefreshToken (_id u) now;
          loggedInUser ← FindById (_id u) (fun r => Ret (select_public <$> r));
          match loggedInUser with
          | None => Throw (ApiError 500 "Could not login user")
          | Some profile =>
              Ret (mkResponse 200
                     [("accessToken", accessToken, cookie_options env);
                      ("refreshToken", newRefreshToken, cookie_options env)]
                     []
                     (ApiResponse 200 (LoginData profile accessToken newRefreshToken)
                        "User logged in successfully"))
          end
    end.

(** [User.findByIdAndUpdate(id, { $set: { refreshToken: v } }, { new: true })].
    Mongoose removes from an update the keys whose value is [undefined]
    before it is sent, so with [v] undefined the slot is not part of the
    write: the document is looked up and comes back as it was. *)
Definition findByIdAndUpdate_refreshToken {A} (id : string) (v : option string)
    (k : option User -> Db A) : Db A :=
  match v with
  | Some tok => UpdateRefreshToken id (Some tok) k
  | None => FindById id k
  end.

Definition logoutUser (req : Request) : Db Response :=
  match user req with
  | None => Throw (JsError "TypeError" "Cannot read properties of undefined (reading '_id')")
  | Some u =>
      findByIdAndUpdate_refreshToken (_id u) None (fun _ =>
        Ret (mkResponse 200 []
               [("accessToken", cookie_options env); ("refreshToken", cookie_options env)]
               (ApiResponse 200 NoData "User logged out successfully")))
  end.

Definition refreshAccessToken (req : Request) (now : Z) : Db Response :=
  let incomingRefreshToken :=
    js_or (cookies req !! "refreshToken") (body req !! "refreshAccessToken") in
  match incomingRefreshToken with
  | Some incoming =>
      if negb (truthy incomingRefreshToken) then
        Throw (ApiError 401 "Refresh token is required")
      else
        try_catch
          (if negb (truthy (REFRESH_TOKEN_SECRET env)) then
             Throw (ApiError 500 "JWT secret is not defined in environment variables")
           else
             decodedToken ← jwt_verify incoming (REFRESH_TOKEN_SECRET env) now;
             found ← FindById (tok_id decodedToken) Ret;
             match found with
             | None => Throw (ApiError 401 "Invalid refresh token")
             | Some u =>
                 if strict_ne incomingRefreshToken (refreshToken u) then
                   Throw (ApiError 401 "Invalid refresh token")
                 else
                   '(accessToken, newRefreshToken) ← generateAccessAndRefreshToken (_id u) now;
                   Ret (mkResponse 200
                          [("accessToken", accessToken, cookie_options env);
                           ("refreshToken", newRefreshToken, cookie_options env)]
                          []
                          (ApiResponse 200 (TokenData accessToken newRefreshToken)
                             "Access token refreshed successfully"))
             end)
          (fun _ => Throw (ApiError 500 "Something went wrong while refreshing access token"))
  | None => Throw (ApiError 401 "Refresh token is required")
  end.

(** The middleware: on success the request goes on to the next handler with
    [req.user] set. *)
Definition verifyJWT (req : Request) (now : Z) : Db Request :=
  let token :=
    js_or (cookies req !! "accessToken")
          (remove_first "Bearer " <$> headers req !! "Authorization") in
  match token with
  | Some tok =>
      if negb (truthy token) then
        Throw (ApiError 401 "Not authorized, no token")
      else
        try_catch
          (decodedToken ← jwt_verify tok (ACCESS_TOKEN_SECRET env) now;
           found ← FindById (tok_id decodedToken) (fun r => Ret (select_public <$> r));
           match found with
           | None => Throw (ApiError 401 "User not found")
           | Some u => Ret (attach_user u req)
           end)
          (fun _ => Throw (ApiError 401 "Not authorized, token failed"))
  | None => Throw (ApiError 401 "Not authorized, no token")
  end.

(** [errorHandler]: an [ApiError] is sent with its own status; any other
    error gets 400 if it is a Mongoose error and 500 otherwise.  The body is
    the envelope of the error, without its message.  (The stack trace that
    is added to the body in development is not part of [Json].) *)
Definition errorHandler (err : Thrown) : Response :=
  match err with
  | ApiError code _ => mkResponse code [] [] (ErrorEnvelope code)
  | MongooseError _ => mkResponse 400 [] [] (ErrorEnvelope 400)
  | JsError _ _ => mkResponse 500 [] [] (ErrorEnvelope 500)
  end.

(** [asyncHandler(requestHandler)]: a rejection goes to [next]. *)
Definition asyncHandler {A} (requestHandler : Db A) (next : Thrown -> Db A) : Db A :=
  try_catch requestHandler next.

(** A wrapped handler in front of [errorHandler], which [app.js] registers
    after the routes: what the client gets. *)
Definition respond (h : Db Response) : Db Response :=
  asyncHandler h (fun err => Ret (errorHandler err)).

(** The routes of [user.routes.js]. *)
Definition POST_login (req : Request) (now : Z) : Db Response :=
  respond (loginUser req now).

Definition POST_refresh_token (req : Request) (now : Z) : Db Response :=
  respond (refreshAccessToken req now).

Definition POST_logout (req : Request) (now : Z) : Db Response :=
  respond (req' ← verifyJWT req now; logoutUser req').

(** A route guarded by [verifyJWT] in front of [getCurrentUser]. *)
Definition GET_current_user (req : Request) (now : Z) : Db Response :=
  respond (req' ← verifyJWT req now;
           match user req' with
           | Some u => Ret (mkResponse 200 [] [] (ApiResponse 200 (UserData u) "User fetched successfully"))
           | None => Throw (JsError "TypeError" "req.user is undefined")
           end).

End Handlers.

(** ** A reference codec

    A concrete codec and password check on which the handlers can be
    evaluated.  The token of a payload is a self-delimiting serialisation of
    the key followed by the claims: every number is written as the binary
    digits of a positive, least significant first, closed by [H], and every
    string is preceded by its length.
    It has none of the secrecy of a real signature, but it obeys
    [JwtLawful], and that is all the properties below ask of a codec. *)
Module RefCodec.

Fixpoint put_pos (p : positive) (rest : string) : string :=
  match p with
  | xH => String "H"%char rest
  | xO q => String "O"%char (put_pos q rest)
  | xI q => String "I"%char (put_pos q rest)
  end.

Fixpoint get_pos (s : string) : option (positive * string) :=
  match s with
  | String c rest =>
      if Ascii.eqb c "H"%char then Some (xH, rest)
      else if Ascii.eqb c "O"%char then
        match get_pos rest with
        | Some (q, r) => Some (xO q, r)
        | None => None
        end
      else if Ascii.eqb c "I"%char then
        match get_pos rest with
        | Some (q, r) => Some (xI q, r)
        | None => None
        end
      else None
  | EmptyString => None
  end.

Definition put_nat (n : nat) (rest : string) : string :=
  put_pos (Pos.of_succ_nat n) rest.

Definition get_nat (s : string) : option (nat * string) :=
  '(p, r) ← get_pos s; Some (Nat.pred (Pos.to_nat p), r).

Fixpoint split_at (n : nat) (s : string) : option (string * string) :=
  match n, s with
  | O, _ => Some (EmptyString, s)
  | S m, String c rest =>
      match split_at m rest with
      | Some (a, b) => Some (String c a, b)
      | None => None
      end
  | S _, EmptyString => None
  end.

Definition put_str (x rest : string) : string :=
  put_nat (String.length x) (x +:+ rest).

Definition get_str (s : string) : option (string * string) :=
  '(n, r) ← get_nat s; split_at n r.

Definition put_opt (x : option string) (rest : string) : string :=
  match x with
  | Some v => String "S"%char (put_str v rest)
  | None => String "N"%char rest
  end.

Definition get_opt (s : string) : option (option string * string) :=
  match s with
  | String c rest =>
      if Ascii.eqb c "S"%char then '(v, r) ← get_str rest; Some (Some v, r)
      else if Ascii.eqb c "N"%char then Some (None, rest)
      else None
  | EmptyString => None
  end.

Definition put_Z (z : Z) (rest : string) : string :=
  String (if (z <? 0)%Z then "-" else "+")%char (put_nat (Z.abs_nat z) rest).

Definition get_Z (s : string) : option (Z * string) :=
  match s with
  | String c rest =>
      if Ascii.eqb c "-"%char then '(n, r) ← get_nat rest; Some (- Z.of_nat n, r)
      else if Ascii.eqb c "+"%char then '(n, r) ← get_nat rest; Some (Z.of_nat n, r)
      else None
  | EmptyString => None
  end.

Definition encode (p : Payload) (key : string) : string :=
  put_str key (put_str (tok_id p) (put_opt (tok_email p) (put_opt (tok_username p)
    (put_opt (tok_fullname p) (put_Z (iat p) (put_Z (exp p) "")))))).

Definition decode (t : string) : option Payload :=
  '(_, r) ← get_str t;
  '(id, r) ← get_str r;
  '(mail, r) ← get_opt r;
  '(uname, r) ← get_opt r;
  '(fname, r) ← get_opt r;
  '(issued, r) ← get_Z r;
  '(expires, r) ← get_Z r;
  if String.eqb r "" then Some (mkPayload id mail uname fname issued expires) else None.

Definition signature_ok (t key : string) : bool :=
  match get_str t with
  | Some (k, _) => String.eqb k key
  | None => false
  end.

#[export] Instance codec : JwtCodec :=
  {| jwt_encode := encode; jwt_decode := decode; jwt_signature_ok := signature_ok |}.

(** The stored hash of a password is the password behind a fixed prefix. *)
#[export] Instance bcrypt : Bcrypt :=
  {| bcrypt_compare := fun pw hashed => String.eqb hashed ("$2b$12$" +:+ pw) |}.

End RefCodec.

(** ** Views of the handlers used in the statements *)

Section Views.

Context `{JwtCodec} `{Bcrypt}.
Variable env : Env.

(** The token a request presents to [refreshAccessToken], and to
    [verifyJWT]. *)
Definition presented_refresh_token (req : Request) : option string :=
  js_or (cookies req !! "refreshToken") (body req !! "refreshAccessToken").

Definition presented_access_token (req : Request) : option string :=
  js_or (cookies req !! "accessToken")
        (remove_first "Bearer " <$> headers req !! "Authorization").

(** The ways a presented refresh token can fail validation, as the
    interface description lists them. *)
Inductive RefreshFailure (s : Store) (tok : string) (now : Z) : Prop :=
| Malformed : jwt_decode tok = None -> RefreshFailure s tok now
| WrongSecret key :
    REFRESH_TOKEN_SECRET env = Some key ->
    jwt_signature_ok tok key = false -> RefreshFailure s tok now
| Expired p :
    jwt_decode tok = Some p -> exp p <= now -> RefreshFailure s tok now
| SubjectMissing p :
    jwt_decode tok = Some p -> findById (tok_id p) s = None ->
    RefreshFailure s tok now
| NotStored p u :
    jwt_decode tok = Some p -> findById (tok_id p) s = Some u ->
    refreshToken u <> Some tok -> RefreshFailure s tok now.

(** The user a refresh token is accepted for: the checks of
    [refreshAccessToken] in the order the handler makes them. *)
Definition accepted_subject (s : Store) (tok : string) (now : Z) : option User :=
  match REFRESH_TOKEN_SECRET env, jwt_decode tok with
  | Some key, Some p =>
      if truthy (Some key) && jwt_signature_ok tok key && (now <? exp p)%Z then
        match findById (tok_id p) s with
        | Some u => if strict_ne (Some tok) (refreshToken u) then None else Some u
        | None => None
        end
      else None
  | _, _ => None
  end.

(** The identity an access token is accepted for: the checks of
    [verifyJWT]. *)
Definition authenticated_subject (s : Store) (tok : string) (now : Z) : option User :=
  match jwt_decode tok, ACCESS_TOKEN_SECRET env with
  | Some p, Some key =>
      if truthy (Some key) && jwt_signature_ok tok key && (now <? exp p)%Z then
        select_public <$> findById (tok_id p) s
      else None
  | _, _ => None
  end.

Definition token_failed : Thrown := ApiError 401 "Not authorized, token failed".

Definition no_token : Thrown := ApiError 401 "Not authorized, no token".

(** The pair [generateAccessAndRefreshToken] signs for a user, when both
    secrets and both expiries are configured. *)
Definition issue_pair (u : User) (now : Z) : option (string * string) :=
  match ACCESS_TOKEN_SECRET env, ACCESS_TOKEN_EXPIRY env,
        REFRESH_TOKEN_SECRET env, REFRESH_TOKEN_EXPIRY env with
  | Some ak, Some attl, Some rk, Some rttl =>
      if truthy (Some ak) && truthy (Some rk) then
        Some (jwt_encode (mkPayload (_id u) (Some (email u)) (Some (username u))
                            (Some (fullname u)) now (now + attl)) ak,
              jwt_encode (mkPayload (_id u) None None None now (now + rttl)) rk)
      else None
  | _, _, _, _ => None
  end.

Definition generation_failed : Thrown :=
  ApiError 500 "Something went wrong while generating access and refresh tokens".

Definition refresh_failed : Thrown :=
  ApiError 500 "Something went wrong while refreshing access token".

Definition refreshed (accessToken newRefreshToken : string) : Response :=
  mkResponse 200
    [("accessToken", accessToken, cookie_options env);
     ("refreshToken", newRefreshToken, cookie_options env)]
    []
    (ApiResponse 200 (TokenData accessToken newRefreshToken)
       "Access token refreshed successfully").

Definition logged_in (profile : User) (accessToken newRefreshToken : string) : Response :=
  mkResponse 200
    [("accessToken", accessToken, cookie_options env);
     ("refreshToken", newRefreshToken, cookie_options env)]
    []
    (ApiResponse 200 (LoginData profile accessToken newRefreshToken)
       "User logged in successfully").

(** The refresh-token slot of a user. *)
Definition slot (id : string) (s : Store) : option (option string) :=
  refreshToken <$> findById id s.

(** What the client of a finished request saw. *)
Definition status_of (p : Db Response) : option Z :=
  match finished p with
  | Some (Returned r) => Some (status r)
  | _ => None
  end.

End Views.

(** ** A small deployment

    Two registered users and the requests used to exercise the handlers on
    the reference codec. *)
Module Scenario.
Export RefCodec.

Definition env0 : Env :=
  mkEnv (Some "access-secret") (Some 900) (Some "refresh-secret") (Some 864000) None.

Definition alice : User :=
  mkUser "u1" "alice" "alice@example.com" "Alice" (Some "$2b$12$Secret123*") None.

Definition bob : User :=
  mkUser "u2" "bob" "bob@example.com" "Bob" (Some "$2b$12$hunter2") None.

Definition store0 : Store := [alice; bob].

Definition json_body (fields : list (string * string)) : Request :=
  mkRequest ∅ (list_to_map fields) ∅ None.

Definition with_cookie (name value : string) : Request :=
  mkRequest {[ name := value ]} ∅ ∅ None.

Definition with_bearer (tok : string) : Request :=
  mkRequest ∅ ∅ {[ "Authorization" := "Bearer " +:+ tok ]} None.

(** Alice logs in with her email at second 1000. *)
Definition login_alice : Request :=
  json_body [("email", "alice@example.com"); ("password", "Secret123*")].

(** The same with her username in place of the email. *)
Definition login_alice_by_username : Request :=
  json_body [("username", "alice"); ("password", "Secret123*")].

Definition login_alice_wrong_password : Request :=
  json_body [("email", "alice@example.com"); ("password", "letmein")].

(** The tokens of that login, and the store it leaves. *)
Definition T1a : string :=
  jwt_encode (mkPayload "u1" (Some "alice@example.com") (Some "alice") (Some "Alice") 1000 1900)
    "access-secret".

Definition T1r : string :=
  jwt_encode (mkPayload "u1" None None None 1000 865000) "refresh-secret".

Definition store1 : Store := [set_refreshToken (Some T1r) alice; bob].

(** The pair a rotation at second 1060 issues. *)
Definition T2a : string :=
  jwt_encode (mkPayload "u1" (Some "alice@example.com") (Some "alice") (Some "Alice") 1060 1960)
    "access-secret".

Definition T2r : string :=
  jwt_encode (mkPayload "u1" None None None 1060 865060) "refresh-secret".

Definition store2 : Store := [set_refreshToken (Some T2r) alice; bob].

(** Requests presenting a refresh token, and a request that went through
    the guard as Alice. *)
Definition refresh_with (tok : string) : Request := with_cookie "refreshToken" tok.

Definition as_alice : Request := attach_user (select_public alice) (with_cookie "accessToken" T1a).

End Scenario.

(** ** More of the session code

    The password change of [user.controllers.js] with the [pre("save")] hook
    of the User model, the rest of [errorHandler], the public-id computation
    of the image handlers, and the vocabulary of the statements about
    them. *)

(** The token pair in the body of a response. *)
Definition body_tokens (j : Json) : option (string * string) :=
  match j with
  | ApiResponse _ (LoginData _ accessToken newRefreshToken) _ => Some (accessToken, newRefreshToken)
  | ApiResponse _ (TokenData accessToken newRefreshToken) _ => Some (accessToken, newRefreshToken)
  | _ => None
  end.

(** The answer of [logoutUser]. *)
Definition logged_out (env : Env) : Response :=
  mkResponse 200 []
    [("accessToken", cookie_options env); ("refreshToken", cookie_options env)]
    (ApiResponse 200 NoData "User logged out successfully").

(** *** [errorHandler] on errors that are not [ApiError]s

    Such an error may carry a [statusCode] of its own (the body parsers of
    [app.js] set one), may be a Mongoose error, and may have a message. *)
Record ForeignError := mkForeign {
  foreign_statusCode : option Z;
  foreign_mongoose : bool;
  foreign_message : option string
}.

(** The truth value of a number that may be [undefined]. *)
Definition truthy_number (n : option Z) : bool :=
  match n with
  | Some z => negb (z =? 0)%Z
  | None => false
  end.

(** The [ApiError] the handler makes of it:
    [error.statusCode || error instanceof mongoose.Error ? 400 : 500] and
    [error.message || "Something went wrong"]. *)
Definition to_ApiError (e : ForeignError) : Thrown :=
  ApiError
    (if truthy_number (foreign_statusCode e) || foreign_mongoose e then 400 else 500)
    (default "Something went wrong" (js_or (foreign_message e) None)).

Definition errorHandler_foreign (e : ForeignError) : Response :=
  errorHandler (to_ApiError e).

(** *** Changing the password *)

(** [bcrypt.hash(data, rounds)]; the salt the library draws is an input. *)
Class BcryptHash := { bcrypt_hash : string -> Z -> string -> string }.

(** A password verifies against its own hash. *)
Class BcryptLawful `{Bcrypt} `{BcryptHash} : Prop := {
  compare_hash : forall pw rounds salt, bcrypt_compare pw (bcrypt_hash pw rounds salt) = true
}.

(** A signature made with one key does not verify under another. *)
Class JwtKeyed `{JwtCodec} : Prop := {
  signature_key : forall p key key',
    jwt_signature_ok (jwt_encode p key) key' = true -> key' = key
}.

Definition set_password (pw : option string) (u : User) : User :=
  mkUser (_id u) (username u) (email u) (fullname u) pw (refreshToken u).

(** The write behind [user.save()] after [user.password = ...]. *)
Fixpoint updatePassword (id : string) (pw : option string) (s : Store) : Store :=
  match s with
  | [] => []
  | u :: rest =>
      if String.eqb (_id u) id then set_password pw u :: rest
      else u :: updatePassword id pw rest
  end.

Section PasswordChange.

Context `{JwtCodec} `{Bcrypt} `{BcryptHash}.
Variable env : Env.

(** [userSchema.pre("save")]: the password is hashed, with cost 12, when it
    was modified, that is when it differs from the stored one. *)
Definition pre_save (stored doc : User) (salt : string) : Outcome User :=
  if bool_decide (password doc = password stored) then Returned doc
  else
    match password doc with
    | Some pw => Returned (set_password (Some (bcrypt_hash pw 12 salt)) doc)
    | None => Raised (JsError "Error" "data and salt arguments required")
    end.

Definition changeCurrentPassword (req : Request) (salt : string) (s : Store)
  : Outcome Response * Store :=
  let oldPassword := body req !! "oldPassword" in
  let newPassword := body req !! "newPassword" in
  match user req ≫= (fun identity => findById (_id identity) s) with
  | None => (Raised (JsError "TypeError" "Cannot read properties of null (reading 'isPasswordCorrect')"), s)
  | Some u =>
      match oldPassword with
      | None => (Raised (JsError "Error" "data and hash arguments required"), s)
      | Some old =>
          match run (isPasswordCorrect u old) s with
          | (Raised e, _) => (Raised e, s)
          | (Returned isCorrect, _) =>
              if negb isCorrect then (Raised (ApiError 400 "Invalid old password"), s)
              else
                match pre_save u (set_password newPassword u) salt with
                | Raised e => (Raised e, s)
                | Returned doc =>
                    (Returned (mkResponse 200 [] []
                                 (ApiResponse 200 NoData "Password changed successfully")),
                     updatePassword (_id u) (password doc) s)
                end
          end
      end
  end.

(** [router.route("/change-password").post(verifyJWT, changeCurrentPassword)] *)
Definition POST_change_password (req : Request) (now : Z) (salt : string) (s : Store)
  : Outcome Response * Store :=
  match run (verifyJWT env req now) s with
  | (Raised e, s') => (Returned (errorHandler e), s')
  | (Returned req', s') =>
      match changeCurrentPassword req' salt s' with
      | (Raised e, s'') => (Returned (errorHandler e), s'')
      | (Returned r, s'') => (Returned r, s'')
      end
  end.

End PasswordChange.

(** *** The public id of a stored image *)

(** [s.split(sep)] for a one-character separator. *)
Fixpoint split (sep : ascii) (s : string) : list string :=
  match s with
  | EmptyString => [EmptyString]
  | String c rest =>
      if Ascii.eqb c sep then EmptyString :: split sep rest
      else
        match split sep rest with
        | piece :: pieces => String c piece :: pieces
        | [] => [String c EmptyString]
        end
  end.

(** [url ? url.split('/').pop().split('.')[0] : null], the expression of
    [updateUserAvatar] and [updateUserCoverImage]. *)
Definition currentPublicId (url : option string) : option string :=
  match url with
  | Some u =>
      if truthy url then
        last (split "/" u) ≫= (fun segment => head (split "." segment))
      else None
  | None => None
  end.

(** A string without a given character. *)
Fixpoint lacks (c : ascii) (s : string) : bool :=
  match s with
  | EmptyString => true
  | String d rest => negb (Ascii.eqb d c) && lacks c rest
  end.

(** The reference password hash, the one [RefCodec.bcrypt] compares
    against. *)
Module RefHash.

#[export] Instance hash : BcryptHash :=
  {| bcrypt_hash := fun pw _ _ => "$2b$12$" +:+ pw |}.

End RefHash.

(** The requests and values used to exercise the code above. *)
Module MoreScenario.
Export Scenario RefHash.

(** The pair of a second login of Alice, at second 2000. *)
Definition T3a : string :=
  jwt_encode (mkPayload "u1" (Some "alice@example.com") (Some "alice") (Some "Alice") 2000 2900)
    "access-secret".

Definition T3r : string :=
  jwt_encode (mkPayload "u1" None None None 2000 866000) "refresh-secret".

Definition store3 : Store := [set_refreshToken (Some T3r) alice; bob].

(** The refresh token of a deployment with one secret for both kinds. *)
Definition T1r_shared : string :=
  jwt_encode (mkPayload "u1" None None None 1000 865000) "one-secret".

(** One secret for both kinds of token. *)
Definition env_shared : Env :=
  mkEnv (Some "one-secret") (Some 900) (Some "one-secret") (Some 864000) None.

(** A stale cookie beside a good bearer header. *)
Definition stale_cookie : Request := with_cookie "accessToken" "stale".

(** Alice, past the guard, asks for a new password. *)
Definition change_password (old new : string) : Request :=
  mkRequest ∅ (list_to_map [("oldPassword", old); ("newPassword", new)]) ∅
    (Some (select_public alice)).

(** What the JSON body parser raises for a body above its 16kb limit. *)
Definition payload_too_large : ForeignError :=
  mkForeign (Some 413) false (Some "request entity too large").

Definition avatar_folder : string :=
  "http://res.cloudinary.com/demo/image/upload/v1712345678/avatars".

Definition avatar_url : string := avatar_folder +:+ "/abc123.jpg".

End MoreScenario.

(** ** Running programs: equations *)

Lemma run_bind {A B} (m : Db A) (f : A -> Db B) (s : Store) :
  run (bind m f) s =
  match run m s with
  | (Returned a, s') => run (f a) s'
  | (Raised e, s') => (Raised e, s')
  end.
Proof.
  revert s. induction m as [a|e|id k IH|u e k IH|id tok k IH]; intros s; simpl; auto.
Qed.

Lemma run_try_catch {A} (m : Db A) (h : Thrown -> Db A) (s : Store) :
  run (try_catch m h) s =
  match run m s with
  | (Returned a, s') => (Returned a, s')
  | (Raised e, s') => run (h e) s'
  end.
Proof.
  revert s. induction m as [a|e|id k IH|u e k IH|id tok k IH]; intros s; simpl; auto.
Qed.

Lemma run_mbind {A B} (m : Db A) (f : A -> Db B) (s : Store) :
  run (m ≫= f) s =
  match run m s with
  | (Returned a, s') => run (f a) s'
  | (Raised e, s') => (Raised e, s')
  end.
Proof. apply run_bind. Qed.

(** A step followed by a run is a run. *)
Lemma run_step {A} (m : Db A) (s : Store) :
  run m s = run (fst (step m s)) (snd (step m s)).
Proof. destruct m; reflexivity. Qed.

Lemma interleave_app {A} (l1 l2 : list bool) (p q : Db A) (s : Store) :
  interleave (l1 ++ l2) p q s =
  let '(p', q', s') := interleave l1 p q s in interleave l2 p' q' s'.
Proof.
  revert p q s. induction l1 as [|b l1 IH]; intros p q s; simpl.
  - reflexivity.
  - destruct b.
    + destruct (step p s) as [p' s']. apply IH.
    + destruct (step q s) as [q' s']. apply IH.
Qed.

(** Given all its turns, a request ends where [run] says it ends. *)
Lemma interleave_first_alone {A} (p q : Db A) (s : Store) :
  interleave (repeat true (awaits p s)) p q s =
  (settled (fst (run p s)), q, snd (run p s)).
Proof.
  revert s. induction p as [a|e|id k IH|u e k IH|id tok k IH]; intros s; simpl;
    try reflexivity; apply IH.
Qed.

Lemma interleave_second_alone {A} (p q : Db A) (s : Store) :
  interleave (repeat false (awaits q s)) p q s =
  (p, settled (fst (run q s)), snd (run q s)).
Proof.
  revert s. induction q as [a|e|id k IH|u e k IH|id tok k IH]; intros s; simpl;
    try reflexivity; apply IH.
Qed.

(** One request after the other is one of the schedules. *)
Lemma interleave_sequential {A} (p q : Db A) (s : Store) :
  interleave (repeat true (awaits p s) ++ repeat false (awaits q (snd (run p s)))) p q s =
  (settled (fst (run p s)), settled (fst (run q (snd (run p s)))),
   snd (run q (snd (run p s)))).
Proof.
  rewrite interleave_app, interleave_first_alone. apply interleave_second_alone.
Qed.

(** ** The store: equations *)

Lemma findById_id id s u : findById id s = Some u -> _id u = id.
Proof.
  unfold findById. intros Hf. apply find_some in Hf as [_ Heq].
  now apply String.eqb_eq in Heq.
Qed.

Lemma findById_update id tok s :
  findById id (updateRefreshToken id tok s) = set_refreshToken tok <$> findById id s.
Proof.
  induction s as [|u rest IH]; simpl; [reflexivity |].
  destruct (String.eqb (_id u) id) eqn:E; simpl.
  - now rewrite E.
  - now rewrite E.
Qed.

Lemma truthy_Some s : truthy (Some s) = true <-> s <> "".
Proof.
  unfold truthy. destruct (String.eqb_spec s ""); simpl; split; congruence.
Qed.

Lemma strict_ne_false a b : strict_ne a b = false <-> a = b.
Proof.
  destruct a as [x|], b as [y|]; simpl; split; try congruence.
  - destruct (String.eqb_spec x y); simpl; congruence.
  - intros [= ->]. now rewrite String.eqb_refl.
Qed.

(** ** The reference codec is lawful *)
Module RefCodecLaws.
Import RefCodec.

Lemma get_put_pos p rest : get_pos (put_pos p rest) = Some (p, rest).
Proof. induction p as [q IH|q IH|]; simpl; [now rewrite IH | now rewrite IH | reflexivity]. Qed.

Lemma get_put_nat n rest : get_nat (put_nat n rest) = Some (n, rest).
Proof.
  unfold get_nat, put_nat. rewrite get_put_pos. cbn [mbind option_bind].
  now rewrite SuccNat2Pos.id_succ.
Qed.

Lemma split_at_app x rest : split_at (String.length x) (x +:+ rest) = Some (x, rest).
Proof. induction x as [|c x IH]; simpl; [now destruct rest | now rewrite IH]. Qed.

Lemma get_put_str x rest : get_str (put_str x rest) = Some (x, rest).
Proof.
  unfold get_str, put_str. rewrite get_put_nat. apply split_at_app.
Qed.

Lemma get_put_opt x rest : get_opt (put_opt x rest) = Some (x, rest).
Proof.
  destruct x as [v|]; cbn [put_opt get_opt Ascii.eqb Bool.eqb]; [| reflexivity].
  now rewrite get_put_str.
Qed.

Lemma get_put_Z z rest : get_Z (put_Z z rest) = Some (z, rest).
Proof.
  unfold put_Z, get_Z. destruct (Z.ltb_spec z 0); cbn [Ascii.eqb Bool.eqb];
    rewrite get_put_nat; cbn [mbind option_bind]; do 2 f_equal; lia.
Qed.

Lemma decode_encode_ref p key : decode (encode p key) = Some p.
Proof.
  unfold decode, encode.
  repeat (first [rewrite get_put_str | rewrite get_put_opt | rewrite get_put_Z];
          cbn [mbind option_bind]).
  now destruct p.
Qed.

Lemma signature_encode_ref p key : signature_ok (encode p key) key = true.
Proof.
  unfold signature_ok, encode. rewrite get_put_str. apply String.eqb_refl.
Qed.

Lemma encode_nonempty_ref p key : encode p key <> "".
Proof. unfold encode, put_str, put_nat. now destruct (Pos.of_succ_nat (String.length key)). Qed.

#[export] Instance lawful : JwtLawful.
Proof.
  split; [exact decode_encode_ref | exact signature_encode_ref | exact encode_nonempty_ref].
Qed.

End RefCodecLaws.


(** ** The handlers, run *)
Section Properties.
Context `{JwtCodec} `{Bcrypt}.
Variable env : Env.

Lemma run_generate id now s :
  run (generateAccessAndRefreshToken env id now) s =
  match findById id s with
  | Some u =>
      match issue_pair env u now with
      | Some (accessToken, newRefreshToken) =>
          (Returned (accessToken, newRefreshToken),
           updateRefreshToken id (Some newRefreshToken) s)
      | None => (Raised generation_failed, s)
      end
  | None => (Raised generation_failed, s)
  end.
Proof.
  unfold generateAccessAndRefreshToken. rewrite run_try_catch. cbn [mbind Db_bind bind run].
  destruct (findById id s) as [u|] eqn:Hu; [| reflexivity].
  pose proof (findById_id _ _ _ Hu) as Hid.
  unfold issue_pair, generateAccessToken, generateRefreshToken, jwt_sign, save_refreshToken.
  destruct (ACCESS_TOKEN_SECRET env) as [ak|]; [| reflexivity].
  destruct (truthy (Some ak)); [| now destruct (ACCESS_TOKEN_EXPIRY env), (REFRESH_TOKEN_SECRET env), (REFRESH_TOKEN_EXPIRY env)].
  destruct (ACCESS_TOKEN_EXPIRY env) as [attl|]; [| reflexivity].
  destruct (REFRESH_TOKEN_SECRET env) as [rk|]; [| reflexivity].
  destruct (truthy (Some rk)); [| now destruct (REFRESH_TOKEN_EXPIRY env)].
  destruct (REFRESH_TOKEN_EXPIRY env) as [rttl|]; [| reflexivity].
  cbn [mbind Db_bind bind run andb]. rewrite Hid, findById_update, Hu. reflexivity.
Qed.

Lemma run_refresh req now s tok :
  presented_refresh_token req = Some tok -> tok <> "" ->
  run (refreshAccessToken env req now) s =
  match accepted_subject env s tok now with
  | Some u =>
      match issue_pair env u now with
      | Some (accessToken, newRefreshToken) =>
          (Returned (refreshed env accessToken newRefreshToken),
           updateRefreshToken (_id u) (Some newRefreshToken) s)
      | None => (Raised refresh_failed, s)
      end
  | None => (Raised refresh_failed, s)
  end.
Proof.
  intros Htok Hne. unfold refreshAccessToken. unfold presented_refresh_token in Htok.
  rewrite Htok. apply truthy_Some in Hne. rewrite Hne. cbn [negb].
  rewrite run_try_catch. unfold accepted_subject.
  destruct (REFRESH_TOKEN_SECRET env) as [key|] eqn:Hkey; [| reflexivity].
  destruct (truthy (Some key)) eqn:Hk; cbn [negb andb];
    [| now destruct (jwt_decode tok)].
  rewrite run_mbind. unfold jwt_verify.
  destruct (jwt_decode tok) as [p|]; [| reflexivity].
  rewrite Hk. cbn [negb].
  destruct (jwt_signature_ok tok key); cbn [negb andb]; [| reflexivity].
  rewrite Z.ltb_antisym.
  destruct (exp p <=? now)%Z; cbn [negb run]; [reflexivity |].
  rewrite run_mbind; cbn [run].
  destruct (findById (tok_id p) s) as [u|] eqn:Hu; [| reflexivity].
  destruct (strict_ne (Some tok) (refreshToken u)); [reflexivity |].
  rewrite run_mbind, run_generate.
  rewrite (findById_id _ _ _ Hu), Hu.
  destruct (issue_pair env u now) as [[a r]|]; reflexivity.
Qed.

Lemma run_POST_refresh_token req now s tok :
  presented_refresh_token req = Some tok -> tok <> "" ->
  run (POST_refresh_token env req now) s =
  match accepted_subject env s tok now with
  | Some u =>
      match issue_pair env u now with
      | Some (accessToken, newRefreshToken) =>
          (Returned (refreshed env accessToken newRefreshToken),
           updateRefreshToken (_id u) (Some newRefreshToken) s)
      | None => (Returned (errorHandler refresh_failed), s)
      end
  | None => (Returned (errorHandler refresh_failed), s)
  end.
Proof.
  intros Htok Hne. unfold POST_refresh_token, respond, asyncHandler.
  rewrite run_try_catch, (run_refresh _ _ _ _ Htok Hne).
  destruct (accepted_subject env s tok now) as [u|]; [| reflexivity].
  destruct (issue_pair env u now) as [[a r]|]; reflexivity.
Qed.

Lemma failure_not_accepted s tok now :
  RefreshFailure env s tok now -> accepted_subject env s tok now = None.
Proof.
  unfold accepted_subject.
  intros [Hd | key Hk Hsig | p Hd Hexp | p Hd Hu | p u Hd Hu Hne].
  - rewrite Hd. now destruct (REFRESH_TOKEN_SECRET env).
  - rewrite Hk, Hsig. rewrite andb_false_r. now destruct (jwt_decode tok).
  - rewrite Hd. destruct (REFRESH_TOKEN_SECRET env); [| reflexivity].
    assert ((now <? exp p)%Z = false) as -> by (apply Z.ltb_ge; exact Hexp).
    now rewrite andb_false_r.
  - rewrite Hd, Hu. destruct (REFRESH_TOKEN_SECRET env); [| reflexivity].
    now destruct (_ && _ && _).
  - rewrite Hd, Hu. destruct (REFRESH_TOKEN_SECRET env); [| reflexivity].
    destruct (_ && _ && _); [| reflexivity].
    destruct (strict_ne (Some tok) (refreshToken u)) eqn:E; [reflexivity |].
    apply strict_ne_false in E. congruence.
Qed.

Lemma run_verifyJWT req now s tok :
  presented_access_token req = Some tok -> tok <> "" ->
  run (verifyJWT env req now) s =
  match authenticated_subject env s tok now with
  | Some u => (Returned (attach_user u req), s)
  | None => (Raised token_failed, s)
  end.
Proof.
  intros Htok Hne. unfold verifyJWT. unfold presented_access_token in Htok.
  rewrite Htok. apply truthy_Some in Hne. rewrite Hne. cbn [negb].
  rewrite run_try_catch, run_mbind. unfold authenticated_subject, jwt_verify.
  destruct (jwt_decode tok) as [p|]; [| reflexivity].
  destruct (ACCESS_TOKEN_SECRET env) as [key|]; [| reflexivity].
  destruct (truthy (Some key)); cbn [negb andb]; [| reflexivity].
  destruct (jwt_signature_ok tok key); cbn [negb andb]; [| reflexivity].
  rewrite Z.ltb_antisym.
  destruct (exp p <=? now)%Z; cbn [negb run]; [reflexivity |].
  rewrite run_mbind; cbn [run].
  now destruct (findById (tok_id p) s).
Qed.

Lemma run_verifyJWT_no_token req now s :
  truthy (presented_access_token req) = false ->
  run (verifyJWT env req now) s = (Raised no_token, s).
Proof.
  unfold verifyJWT, presented_access_token. intros Hf.
  destruct (js_or _ _) as [tok|]; [| reflexivity].
  now rewrite Hf.
Qed.

Lemma run_loginUser req now s :
  run (loginUser env req now) s =
  if negb (truthy (body req !! "email")) || negb (truthy (body req !! "password")) then
    (Raised (ApiError 400 "Email is required"), s)
  else
    match findOne (body req !! "username") (body req !! "email") s with
    | None => (Raised (ApiError 404 "User not found"), s)
    | Some u =>
        match password u with
        | None => (Raised (JsError "Error" "data and hash arguments required"), s)
        | Some hashed =>
            if bcrypt_compare (default "" (body req !! "password")) hashed then
              match findById (_id u) s with
              | Some u0 =>
                  match issue_pair env u0 now with
                  | Some (accessToken, newRefreshToken) =>
                      (Returned (logged_in env (select_public u0) accessToken newRefreshToken),
                       updateRefreshToken (_id u) (Some newRefreshToken) s)
                  | None => (Raised generation_failed, s)
                  end
              | None => (Raised generation_failed, s)
              end
            else (Raised (ApiError 400 "Invalid user credentials"), s)
        end
    end.
Proof.
  unfold loginUser.
  destruct (negb (truthy (body req !! "email")) || negb (truthy (body req !! "password")));
    [reflexivity |].
  rewrite run_mbind; cbn [run].
  destruct (findOne _ _ s) as [u|]; [| reflexivity].
  rewrite run_mbind. unfold isPasswordCorrect.
  destruct (password u) as [hashed|]; [| reflexivity]. cbn [run].
  destruct (bcrypt_compare _ hashed); cbn [negb]; [| reflexivity].
  rewrite run_mbind, run_generate.
  destruct (findById (_id u) s) as [u0|] eqn:Hu0; [| reflexivity].
  destruct (issue_pair env u0 now) as [[a r]|]; [| reflexivity].
  rewrite run_mbind; cbn [run]. rewrite findById_update, Hu0. reflexivity.
Qed.

(** ** Refresh: validation failures *)

(** C1. A refresh request whose token fails validation (malformed, wrong
    secret, expired, subject missing, or different from the stored token) is
    answered with status 500: the [ApiError(401)] thrown inside the [try]
    block of [refreshAccessToken] is caught by that block's own [catch] and
    replaced by an [ApiError(500)].  The store is left as it was. *)
Theorem refresh_validation_failure_status req s now tok :
  presented_refresh_token req = Some tok -> tok <> "" ->
  RefreshFailure env s tok now ->
  run (POST_refresh_token env req now) s = (Returned (errorHandler refresh_failed), s)
  /\ status (errorHandler refresh_failed) = 500.
Proof.
  intros Htok Hne Hfail. split; [| reflexivity].
  rewrite (run_POST_refresh_token _ _ _ _ Htok Hne).
  now rewrite (failure_not_accepted _ _ _ Hfail).
Qed.

(** ** Logout *)

Lemma run_logoutUser req u s :
  user req = Some u ->
  run (respond (logoutUser env req)) s =
  (Returned (mkResponse 200 []
               [("accessToken", cookie_options env); ("refreshToken", cookie_options env)]
               (ApiResponse 200 NoData "User logged out successfully")),
   s).
Proof.
  intros Hu. unfold respond, asyncHandler, logoutUser. rewrite Hu. reflexivity.
Qed.

(** C2. Logout revokes nothing.  The update that [logoutUser] sends sets
    the slot to [undefined], and such a key is dropped from the write: the
    logout is answered 200 with both cookies cleared, the user's slot still
    holds the refresh token, and a refresh that presents this token after
    the logout is answered as it would have been before it, with status 200
    and a new pair when the token is otherwise valid. *)
Theorem logout_leaves_refresh_token_valid req u s tok req2 now v accessToken newRefreshToken :
  user req = Some u ->
  slot (_id u) s = Some (Some tok) -> tok <> "" ->
  presented_refresh_token req2 = Some tok ->
  accepted_subject env s tok now = Some v ->
  issue_pair env v now = Some (accessToken, newRefreshToken) ->
  exists r s1,
    run (respond (logoutUser env req)) s = (Returned r, s1) /\
    status r = 200 /\
    cleared_cookies r =
      [("accessToken", cookie_options env); ("refreshToken", cookie_options env)] /\
    slot (_id u) s1 = Some (Some tok) /\
    run (POST_refresh_token env req2 now) s1 =
      (Returned (refreshed env accessToken newRefreshToken),
       updateRefreshToken (_id v) (Some newRefreshToken) s1) /\
    status (refreshed env accessToken newRefreshToken) = 200.
Proof.
  intros Hu Hslot Hne Htok Hacc Hpair.
  eexists _, _. split; [apply (run_logoutUser _ _ _ Hu) |].
  split; [reflexivity |]. split; [reflexivity |]. split; [exact Hslot |].
  split; [| reflexivity].
  now rewrite (run_POST_refresh_token _ _ _ _ Htok Hne), Hacc, Hpair.
Qed.

(** ** Login *)

Lemma run_POST_login_wrong_password req s now pw u hashed :
  truthy (body req !! "email") = true ->
  body req !! "password" = Some pw -> pw <> "" ->
  findOne (body req !! "username") (body req !! "email") s = Some u ->
  password u = Some hashed -> bcrypt_compare pw hashed = false ->
  run (POST_login env req now) s =
  (Returned (errorHandler (ApiError 400 "Invalid user credentials")), s).
Proof.
  intros Hmail Hpw Hne Hfind Hhash Hcmp.
  unfold POST_login, respond, asyncHandler. rewrite run_try_catch, run_loginUser.
  rewrite Hmail, Hpw. apply truthy_Some in Hne. rewrite Hne. cbn [negb orb].
  rewrite Hfind, Hhash. change (default "" (Some pw)) with pw. now rewrite Hcmp.
Qed.

(** C5. A login that names an existing user and carries a wrong
    password is refused with [ApiError(400, "Invalid user credentials")]:
    the answer has status 400, not 401, and the store, hence the user's
    refresh-token slot, is unchanged. *)
Theorem login_wrong_password_400 req s now pw u hashed :
  truthy (body req !! "email") = true ->
  body req !! "password" = Some pw -> pw <> "" ->
  findOne (body req !! "username") (body req !! "email") s = Some u ->
  password u = Some hashed -> bcrypt_compare pw hashed = false ->
  run (loginUser env req now) s = (Raised (ApiError 400 "Invalid user credentials"), s) /\
  exists r,
    run (POST_login env req now) s = (Returned r, s) /\
    status r = 400 /\ set_cookies r = [] /\ json r = ErrorEnvelope 400.
Proof.
  intros Hmail Hpw Hne Hfind Hhash Hcmp. split.
  - rewrite run_loginUser, Hmail, Hpw.
    pose proof Hne as Ht. apply truthy_Some in Ht. rewrite Ht. cbn [negb orb].
    rewrite Hfind, Hhash. change (default "" (Some pw)) with pw. now rewrite Hcmp.
  - eexists. split; [eapply run_POST_login_wrong_password; eassumption |].
    repeat split.
Qed.

Lemma run_POST_login_success req s now pw u hashed accessToken newRefreshToken :
  truthy (body req !! "email") = true ->
  body req !! "password" = Some pw -> pw <> "" ->
  findOne (body req !! "username") (body req !! "email") s = Some u ->
  findById (_id u) s = Some u ->
  password u = Some hashed -> bcrypt_compare pw hashed = true ->
  issue_pair env u now = Some (accessToken, newRefreshToken) ->
  run (POST_login env req now) s =
  (Returned (logged_in env (select_public u) accessToken newRefreshToken),
   updateRefreshToken (_id u) (Some newRefreshToken) s).
Proof.
  intros Hmail Hpw Hne Hfind Hid Hhash Hcmp Hpair.
  unfold POST_login, respond, asyncHandler. rewrite run_try_catch, run_loginUser.
  rewrite Hmail, Hpw. apply truthy_Some in Hne. rewrite Hne. cbn [negb orb].
  rewrite Hfind, Hhash. change (default "" (Some pw)) with pw.
  now rewrite Hcmp, Hid, Hpair.
Qed.

Lemma findOne_matching uname mail s u :
  In u s -> clause uname (username u) || clause mail (email u) = true ->
  findOne uname mail s <> None.
Proof.
  intros Hin Hm Hnone. unfold findOne in Hnone.
  apply (List.find_none _ _ Hnone) in Hin. simpl in Hin. congruence.
Qed.

Lemma status_POST_login req s now :
  exists r s', run (POST_login env req now) s = (Returned r, s') /\
  (status r = 404 <->
   truthy (body req !! "email") = true /\ truthy (body req !! "password") = true /\
   findOne (body req !! "username") (body req !! "email") s = None).
Proof.
  unfold POST_login, respond, asyncHandler. rewrite run_try_catch, run_loginUser.
  destruct (truthy (body req !! "email")); cbn [negb orb];
    [| eexists _, _; split; [reflexivity |]; simpl; split; [lia | intros (? & _); discriminate]].
  destruct (truthy (body req !! "password")); cbn [negb];
    [| eexists _, _; split; [reflexivity |]; simpl; split; [lia | intros (_ & ? & _); discriminate]].
  destruct (findOne _ _ s) as [u|];
    [| eexists _, _; split; [reflexivity |]; simpl; tauto].
  destruct (password u) as [hashed|];
    [| eexists _, _; split; [reflexivity |]; simpl; split; [lia | intros (_ & _ & ?); discriminate]].
  destruct (bcrypt_compare _ hashed);
    [| eexists _, _; split; [reflexivity |]; simpl; split; [lia | intros (_ & _ & ?); discriminate]].
  destruct (findById (_id u) s) as [u0|];
    [| eexists _, _; split; [reflexivity |]; simpl; split; [lia | intros (_ & _ & ?); discriminate]].
  destruct (issue_pair env u0 now) as [[a r]|];
    eexists _, _; (split; [reflexivity |]); simpl; (split; [lia | intros (_ & _ & ?); discriminate]).
Qed.

(** C6. Login requires a non-empty [email] field: with it and a
    non-empty password, the user is the first document whose username or
    email equals the supplied value once that value is lowercased and
    trimmed, as the schema has it, and with the right password and a
    complete token configuration the login succeeds; the answer is 404
    exactly when both fields are present and no document matches in this
    way, so never when the supplied email is a registered one in another
    case or with padding; without an [email] field the answer is 400,
    whatever username is supplied. *)
Theorem login_lookup_by_username_or_email req s now :
  (forall pw u hashed accessToken newRefreshToken,
     truthy (body req !! "email") = true ->
     body req !! "password" = Some pw -> pw <> "" ->
     findOne (body req !! "username") (body req !! "email") s = Some u ->
     findById (_id u) s = Some u ->
     password u = Some hashed -> bcrypt_compare pw hashed = true ->
     issue_pair env u now = Some (accessToken, newRefreshToken) ->
     run (POST_login env req now) s =
     (Returned (logged_in env (select_public u) accessToken newRefreshToken),
      updateRefreshToken (_id u) (Some newRefreshToken) s)) /\
  (exists r s', run (POST_login env req now) s = (Returned r, s') /\
     (status r = 404 <->
      truthy (body req !! "email") = true /\ truthy (body req !! "password") = true /\
      findOne (body req !! "username") (body req !! "email") s = None)) /\
  (forall u mail r s',
     In u s -> body req !! "email" = Some mail ->
     email u = toLowerCase (trim mail) ->
     run (POST_login env req now) s = (Returned r, s') -> status r <> 404) /\
  (truthy (body req !! "email") = false ->
     run (POST_login env req now) s =
     (Returned (errorHandler (ApiError 400 "Email is required")), s)).
Proof.
  split; [| split; [| split]].
  - intros. eapply run_POST_login_success; eassumption.
  - apply status_POST_login.
  - intros u mail r s' Hin Hmail Hu Hrun Hst.
    destruct (status_POST_login req s now) as (r0 & s0 & Hrun0 & Hiff).
    rewrite Hrun in Hrun0. injection Hrun0 as <- <-.
    apply Hiff in Hst as (_ & _ & Hnone).
    apply (findOne_matching (body req !! "username") (body req !! "email") s u Hin);
      [| exact Hnone].
    rewrite Hmail. unfold clause, schema_setters. rewrite Hu, String.eqb_refl.
    apply orb_true_r.
  - intros Hmail. unfold POST_login, respond, asyncHandler.
    rewrite run_try_catch, run_loginUser, Hmail. reflexivity.
Qed.

(** ** The guard *)

(** C8. A request whose access token has expired is refused with status 401
    before the protected handler runs, whatever the signature says. *)
Theorem expired_access_token_rejected req s now tok p (h : Request -> Db Response) :
  presented_access_token req = Some tok ->
  jwt_decode tok = Some p -> exp p <= now ->
  exists msg,
    run (verifyJWT env req now) s = (Raised (ApiError 401 msg), s) /\
    run (respond (verifyJWT env req now ≫= h)) s =
      (Returned (errorHandler (ApiError 401 msg)), s) /\
    status (errorHandler (ApiError 401 msg)) = 401.
Proof.
  intros Htok Hd Hexp.
  assert (exists msg, run (verifyJWT env req now) s = (Raised (ApiError 401 msg), s))
    as [msg Hrun].
  { destruct (String.eqb_spec tok "") as [-> | Hne].
    - eexists. apply run_verifyJWT_no_token. now rewrite Htok.
    - eexists. rewrite (run_verifyJWT _ _ _ _ Htok Hne).
      unfold authenticated_subject. rewrite Hd.
      destruct (ACCESS_TOKEN_SECRET env); [| reflexivity].
      assert ((now <? exp p)%Z = false) as -> by (apply Z.ltb_ge; exact Hexp).
      rewrite andb_false_r. reflexivity. }
  exists msg. split; [exact Hrun |]. split; [| reflexivity].
  unfold respond, asyncHandler. now rewrite run_try_catch, run_mbind, Hrun.
Qed.

(** C9. Without a [refreshToken] cookie the handler reads the body field
    [refreshAccessToken], and no other, as the refresh token: a non-empty
    value of that field is validated and rotated exactly as the same string
    in the cookie would be, so a valid stored token sent in it is answered
    200 with a new pair; requests that agree on the field are answered
    alike; and when it is absent the handler throws [ApiError(401, "Refresh
    token is required")] and the answer is 401, whatever the body holds
    under [refreshToken]. *)
Theorem refresh_body_field_is_refreshAccessToken req s now :
  cookies req !! "refreshToken" = None ->
  (forall tok,
     body req !! "refreshAccessToken" = Some tok -> tok <> "" ->
     (forall reqC, cookies reqC !! "refreshToken" = Some tok ->
        run (POST_refresh_token env req now) s = run (POST_refresh_token env reqC now) s) /\
     (forall u accessToken newRefreshToken,
        accepted_subject env s tok now = Some u ->
        issue_pair env u now = Some (accessToken, newRefreshToken) ->
        run (POST_refresh_token env req now) s =
          (Returned (refreshed env accessToken newRefreshToken),
           updateRefreshToken (_id u) (Some newRefreshToken) s) /\
        status (refreshed env accessToken newRefreshToken) = 200) /\
     (accepted_subject env s tok now = None ->
        run (POST_refresh_token env req now) s = (Returned (errorHandler refresh_failed), s))) /\
  (forall req',
     cookies req' !! "refreshToken" = None ->
     body req' !! "refreshAccessToken" = body req !! "refreshAccessToken" ->
     run (POST_refresh_token env req' now) s = run (POST_refresh_token env req now) s) /\
  (body req !! "refreshAccessToken" = None ->
     run (refreshAccessToken env req now) s =
       (Raised (ApiError 401 "Refresh token is required"), s) /\
     run (POST_refresh_token env req now) s =
       (Returned (errorHandler (ApiError 401 "Refresh token is required")), s) /\
     status (errorHandler (ApiError 401 "Refresh token is required")) = 401).
Proof.
  intros Hc. split; [| split].
  - intros tok Hb Hne.
    assert (presented_refresh_token req = Some tok) as Htok.
    { unfold presented_refresh_token. rewrite Hc, Hb. reflexivity. }
    rewrite (run_POST_refresh_token _ _ _ _ Htok Hne).
    split; [| split].
    + intros reqC HcC.
      assert (presented_refresh_token reqC = Some tok) as HtokC.
      { unfold presented_refresh_token, js_or. rewrite HcC.
        now apply truthy_Some in Hne as ->. }
      now rewrite (run_POST_refresh_token _ _ _ _ HtokC Hne).
    + intros u a r Hacc Hpair. now rewrite Hacc, Hpair.
    + now intros ->.
  - intros req' Hc' Hb. unfold POST_refresh_token, refreshAccessToken.
    now rewrite Hc, Hc', Hb.
  - intros Hb. unfold POST_refresh_token, refreshAccessToken. now rewrite Hc, Hb.
Qed.

(** C10. The profile in a login response and the identity the guard attaches
    to the request carry neither the password hash nor the stored refresh
    token. *)
Theorem profiles_exclude_password_and_refreshToken req now s :
  (forall r s' code profile accessToken newRefreshToken msg,
     run (POST_login env req now) s = (Returned r, s') ->
     json r = ApiResponse code (LoginData profile accessToken newRefreshToken) msg ->
     password profile = None /\ refreshToken profile = None) /\
  (forall req' s',
     run (verifyJWT env req now) s = (Returned req', s') ->
     exists u, user req' = Some u /\ password u = None /\ refreshToken u = None).
Proof.
  split.
  - intros r s' code profile a t msg. unfold POST_login, respond, asyncHandler.
    rewrite run_try_catch, run_loginUser.
    destruct (negb _ || negb _); [intros [= <- _]; discriminate |].
    destruct (findOne _ _ s) as [u|]; [| intros [= <- _]; discriminate].
    destruct (password u) as [hashed|]; [| intros [= <- _]; discriminate].
    destruct (bcrypt_compare _ hashed); [| intros [= <- _]; discriminate].
    destruct (findById (_id u) s) as [u0|]; [| intros [= <- _]; discriminate].
    destruct (issue_pair env u0 now) as [[a0 r0]|]; [| intros [= <- _]; discriminate].
    intros [= <- _]. simpl. intros [= _ <- _ _ _]. split; reflexivity.
  - intros req' s'.
    destruct (truthy (presented_access_token req)) eqn:Ht.
    + destruct (presented_access_token req) as [tok|] eqn:Htok; [| discriminate].
      apply truthy_Some in Ht. rewrite (run_verifyJWT _ _ _ _ Htok Ht).
      unfold authenticated_subject.
      destruct (jwt_decode tok) as [p|]; [| discriminate].
      destruct (ACCESS_TOKEN_SECRET env); [| discriminate].
      destruct (_ && _ && _); [| discriminate].
      destruct (findById (tok_id p) s) as [v|]; [| discriminate].
      simpl. intros [= <- _]. exists (select_public v). repeat split.
    + rewrite (run_verifyJWT_no_token _ _ _ Ht). discriminate.
Qed.

(** ** Inversions *)

Lemma issue_pair_inv u now accessToken newRefreshToken :
  issue_pair env u now = Some (accessToken, newRefreshToken) ->
  exists ak attl rk rttl,
    ACCESS_TOKEN_SECRET env = Some ak /\ ACCESS_TOKEN_EXPIRY env = Some attl /\
    REFRESH_TOKEN_SECRET env = Some rk /\ REFRESH_TOKEN_EXPIRY env = Some rttl /\
    truthy (Some ak) = true /\ truthy (Some rk) = true /\
    accessToken = jwt_encode (mkPayload (_id u) (Some (email u)) (Some (username u))
                                (Some (fullname u)) now (now + attl)) ak /\
    newRefreshToken = jwt_encode (mkPayload (_id u) None None None now (now + rttl)) rk.
Proof.
  unfold issue_pair.
  destruct (ACCESS_TOKEN_SECRET env) as [ak|]; [| discriminate].
  destruct (ACCESS_TOKEN_EXPIRY env) as [attl|]; [| discriminate].
  destruct (REFRESH_TOKEN_SECRET env) as [rk|]; [| discriminate].
  destruct (REFRESH_TOKEN_EXPIRY env) as [rttl|]; [| discriminate].
  destruct (truthy (Some ak)) eqn:Ha; [| discriminate].
  destruct (truthy (Some rk)) eqn:Hr; [| discriminate].
  intros [= <- <-]. exists ak, attl, rk, rttl. repeat split; assumption || reflexivity.
Qed.

Lemma refresh_success_inv req s now tok r1 s1 :
  presented_refresh_token req = Some tok -> tok <> "" ->
  run (POST_refresh_token env req now) s = (Returned r1, s1) -> status r1 = 200 ->
  exists u accessToken newRefreshToken,
    accepted_subject env s tok now = Some u /\
    issue_pair env u now = Some (accessToken, newRefreshToken) /\
    r1 = refreshed env accessToken newRefreshToken /\
    s1 = updateRefreshToken (_id u) (Some newRefreshToken) s.
Proof.
  intros Htok Hne. rewrite (run_POST_refresh_token _ _ _ _ Htok Hne).
  destruct (accepted_subject env s tok now) as [u|] eqn:Hacc;
    [| intros [= <- _]; discriminate].
  destruct (issue_pair env u now) as [[a r]|] eqn:Hpair;
    [| intros [= <- _]; discriminate].
  intros [= <- <-] _. now exists u, a, r.
Qed.

Lemma accepted_subject_inv s tok now u :
  accepted_subject env s tok now = Some u ->
  exists key p,
    REFRESH_TOKEN_SECRET env = Some key /\ truthy (Some key) = true /\
    jwt_decode tok = Some p /\ jwt_signature_ok tok key = true /\ now < exp p /\
    findById (tok_id p) s = Some u /\ refreshToken u = Some tok.
Proof.
  unfold accepted_subject.
  destruct (REFRESH_TOKEN_SECRET env) as [key|]; [| discriminate].
  destruct (jwt_decode tok) as [p|]; [| discriminate].
  destruct (truthy (Some key)) eqn:Hk; cbn [andb]; [| discriminate].
  destruct (jwt_signature_ok tok key) eqn:Hsig; cbn [andb]; [| discriminate].
  destruct (Z.ltb_spec now (exp p)) as [Hexp|]; [| discriminate].
  destruct (findById (tok_id p) s) as [v|] eqn:Hv; [| discriminate].
  destruct (strict_ne (Some tok) (refreshToken v)) eqn:E; [discriminate |].
  intros [= <-]. apply strict_ne_false in E. exists key, p. repeat split; auto.
Qed.

(** ** Two refreshes in flight *)

(** The interleavings of two three-step requests: all of them but the two
    in which one request runs to its end before the other starts have each
    request read before the other saves. *)
Lemma overlapping_schedules sched :
  length sched = 6%nat ->
  count_occ bool_dec sched true = 3%nat ->
  each_reads_before_the_other_saves sched = false <->
  sched = [true; true; true; false; false; false] \/
  sched = [false; false; false; true; true; true].
Proof.
  intros Hlen Hcount.
  do 7 (destruct sched as [|[] sched]; try discriminate Hlen);
    try discriminate Hcount;
    vm_compute; (split; [intros Hf; try discriminate Hf; auto
                        | intros [Hf | Hf]; try discriminate Hf; reflexivity]).
Qed.

(** C4. The refresh-token slot is written by an unconditional
    save that follows the reads, not by a compare-and-swap: when two refresh
    requests present the same valid stored token then, in every interleaving
    of their steps in which each has passed the equality check before the
    other saves, both are answered 200 with their own new pair, and the slot
    ends up holding the token saved last. *)
Theorem concurrent_refreshes_both_succeed reqA reqB s tok nowA nowB u atA rtA atB rtB sched :
  presented_refresh_token reqA = Some tok ->
  presented_refresh_token reqB = Some tok -> tok <> "" ->
  accepted_subject env s tok nowA = Some u ->
  accepted_subject env s tok nowB = Some u ->
  issue_pair env u nowA = Some (atA, rtA) ->
  issue_pair env u nowB = Some (atB, rtB) ->
  each_reads_before_the_other_saves sched = true ->
  exists s2,
    interleave sched
      (POST_refresh_token env reqA nowA) (POST_refresh_token env reqB nowB) s =
    (Ret (refreshed env atA rtA), Ret (refreshed env atB rtB), s2) /\
    status (refreshed env atA rtA) = 200 /\ status (refreshed env atB rtB) = 200 /\
    slot (_id u) s2 = Some (Some (saved_last sched rtA rtB)).
Proof.
  intros HtA HtB Hne HaccA HaccB HpA HpB Hov.
  destruct (accepted_subject_inv _ _ _ _ HaccA)
    as (key & p & Hkey & Hk & Hd & Hsig & HexpA & Hu & Hstored).
  destruct (accepted_subject_inv _ _ _ _ HaccB)
    as (key' & p' & Hkey' & _ & Hd' & _ & HexpB & _ & _).
  assert (key' = key) as -> by congruence. assert (p' = p) as -> by congruence.
  pose proof (findById_id _ _ _ Hu) as Hid.
  assert (findById (_id u) s = Some u) as Hu' by (rewrite Hid; exact Hu).
  destruct (issue_pair_inv _ _ _ _ HpA)
    as (ak & attl & rk & rttl & Hak & Hattl & Hrk & Hrttl & Hta & Htr & -> & ->).
  destruct (issue_pair_inv _ _ _ _ HpB)
    as (ak' & attl' & rk' & rttl' & Hak' & Hattl' & Hrk' & Hrttl' & _ & _ & -> & ->).
  assert (ak' = ak) as -> by congruence. assert (attl' = attl) as -> by congruence.
  assert (rk' = rk) as -> by congruence. assert (rttl' = rttl) as -> by congruence.
  unfold POST_refresh_token, respond, asyncHandler, refreshAccessToken.
  unfold presented_refresh_token in HtA, HtB. rewrite HtA, HtB.
  apply truthy_Some in Hne. rewrite Hne, Hkey, Hk. cbn [negb].
  unfold jwt_verify. rewrite Hd, Hk, Hsig. cbn [negb].
  apply Z.ltb_lt in HexpA, HexpB. rewrite Z.ltb_antisym in HexpA, HexpB.
  apply negb_true_iff in HexpA, HexpB. rewrite HexpA, HexpB.
  unfold generateAccessAndRefreshToken, generateAccessToken, generateRefreshToken,
    jwt_sign, save_refreshToken.
  cbn [mbind Db_bind bind try_catch].
  unfold each_reads_before_the_other_saves in Hov.
  do 7 (destruct sched as [|[] sched]; cbn in Hov; try discriminate Hov);
    (eexists; split; [| split; [reflexivity | split; [reflexivity |]]];
     [ repeat (progress
         (cbn [interleave step mbind Db_bind bind try_catch fmap option_fmap option_map
               set_refreshToken _id email username fullname refreshToken strict_ne negb];
          rewrite ?findById_update, ?Hu, ?Hu', ?Hstored, ?String.eqb_refl,
            ?Hak, ?Hattl, ?Hrk, ?Hrttl, ?Hta, ?Htr));
       reflexivity
     | unfold slot, saved_last; cbn [last]; rewrite !findById_update, Hu'; reflexivity ]).
Qed.

End Properties.

Lemma substring_all s : String.substring 0 (String.length s) s = s.
Proof. induction s as [|c s IH]; simpl; [reflexivity | now rewrite IH]. Qed.

Lemma remove_first_eq pat s :
  remove_first pat s =
  if String.prefix pat s
  then String.substring (String.length pat) (String.length s - String.length pat)%nat s
  else match s with
       | EmptyString => EmptyString
       | String c s' => String c (remove_first pat s')
       end.
Proof. destruct s; reflexivity. Qed.

Lemma prefix_app pat s : String.prefix pat (pat +:+ s) = true.
Proof.
  induction pat as [|c pat IH]; simpl; [now destruct s |].
  destruct (ascii_dec c c); [exact IH | congruence].
Qed.

Lemma substring_app pat s :
  String.substring (String.length pat) (String.length (pat +:+ s) - String.length pat)%nat
    (pat +:+ s) = s.
Proof.
  induction pat as [|c pat IH]; simpl.
  - rewrite Nat.sub_0_r. apply substring_all.
  - exact IH.
Qed.

(** ["Bearer X".replace("Bearer ", "")] is [X]. *)
Lemma remove_first_prefix pat s : remove_first pat (pat +:+ s) = s.
Proof. rewrite remove_first_eq, prefix_app. apply substring_app. Qed.

(** ** Properties that rest on the codec laws *)
Section Lawful.

Context `{JwtLawful} `{Bcrypt}.
Variable env : Env.

(** A token signed in another second than the presented one is another
    string. *)
Lemma rotation_changes_token u now accessToken newRefreshToken tok p :
  issue_pair env u now = Some (accessToken, newRefreshToken) ->
  jwt_decode tok = Some p -> iat p <> now -> newRefreshToken <> tok.
Proof.
  intros Hpair Hd Hiat ->.
  apply (issue_pair_inv env) in Hpair as (ak & attl & rk & rttl & _ & _ & _ & _ & _ & _ & _ & Hr).
  rewrite Hr, decode_encode in Hd. injection Hd as <-. now apply Hiat.
Qed.

(** C3. After a successful refresh the slot of the token's user
    holds the newly issued refresh token, and the handler accepts a token
    only if it equals the stored string: a second presentation of the used
    token does not succeed and leaves the store alone, provided the newly
    issued token is a different string, which it is whenever the refresh
    happened in another clock second than the one the used token was issued
    in. *)
Theorem used_refresh_token_superseded req s now tok r1 s1 :
  presented_refresh_token req = Some tok -> tok <> "" ->
  run (POST_refresh_token env req now) s = (Returned r1, s1) -> status r1 = 200 ->
  exists u accessToken newRefreshToken,
    r1 = refreshed env accessToken newRefreshToken /\
    slot (_id u) s1 = Some (Some newRefreshToken) /\
    (forall p, jwt_decode tok = Some p -> tok_id p = _id u) /\
    (forall p, jwt_decode tok = Some p -> iat p <> now -> newRefreshToken <> tok) /\
    (newRefreshToken <> tok ->
     forall req2 now2, presented_refresh_token req2 = Some tok ->
       exists r2, run (POST_refresh_token env req2 now2) s1 = (Returned r2, s1) /\
                  status r2 <> 200).
Proof.
  intros Htok Hne Hrun Hst.
  destruct (refresh_success_inv env req s now tok r1 s1 Htok Hne Hrun Hst)
    as (u & a & r & Hacc & Hpair & -> & ->).
  destruct (accepted_subject_inv env _ _ _ _ Hacc) as (key & p & _ & _ & Hd & _ & _ & Hu & Hstored).
  pose proof (findById_id _ _ _ Hu) as Hid.
  exists u, a, r. split; [reflexivity |].
  assert (slot (_id u) (updateRefreshToken (_id u) (Some r) s) = Some (Some r)) as Hslot.
  { unfold slot. rewrite findById_update, Hid, Hu. reflexivity. }
  split; [exact Hslot |].
  split; [intros p' Hd'; congruence |].
  split; [intros p' Hd'; eapply rotation_changes_token; eassumption |].
  intros Hnew req2 now2 Htok2.
  rewrite (run_POST_refresh_token env _ _ _ _ Htok2 Hne).
  assert (accepted_subject env (updateRefreshToken (_id u) (Some r) s) tok now2 = None) as ->.
  { unfold accepted_subject. rewrite Hd, <- Hid.
    destruct (REFRESH_TOKEN_SECRET env); [| reflexivity].
    destruct (_ && _ && _); [| reflexivity].
    unfold slot in Hslot.
    destruct (findById (_id u) (updateRefreshToken (_id u) (Some r) s)) as [v|];
      [| reflexivity].
    simpl in Hslot. injection Hslot as Hv. rewrite Hv.
    destruct (strict_ne (Some tok) (Some r)) eqn:E; [reflexivity |].
    apply strict_ne_false in E. congruence. }
  eexists. split; [reflexivity |]. simpl. lia.
Qed.

(** C7. A login that carries a non-empty email field and the right
    password of the user it resolves to returns an access and a refresh
    token, and a request presenting that access token, in the [accessToken]
    cookie or as a bearer header, before it expires is authenticated as the
    user who logged in: the guard hands the request on with [req.user] set
    to that user's public profile, whose id is the id signed into the
    token, and with its cookies, body and headers as they came. *)
Theorem login_then_authenticate req s now pw u hashed accessToken newRefreshToken
    attl req2 now2 :
  truthy (body req !! "email") = true ->
  body req !! "password" = Some pw -> pw <> "" ->
  findOne (body req !! "username") (body req !! "email") s = Some u ->
  findById (_id u) s = Some u ->
  password u = Some hashed -> bcrypt_compare pw hashed = true ->
  issue_pair env u now = Some (accessToken, newRefreshToken) ->
  ACCESS_TOKEN_EXPIRY env = Some attl -> now2 < now + attl ->
  (cookies req2 !! "accessToken" = Some accessToken \/
   (cookies req2 !! "accessToken" = None /\
    headers req2 !! "Authorization" = Some ("Bearer " +:+ accessToken))) ->
  exists s1 req',
    run (POST_login env req now) s =
      (Returned (logged_in env (select_public u) accessToken newRefreshToken), s1) /\
    run (verifyJWT env req2 now2) s1 = (Returned req', s1) /\
    user req' = Some (select_public u) /\
    _id (select_public u) = _id u /\
    (forall p, jwt_decode accessToken = Some p -> tok_id p = _id u) /\
    cookies req' = cookies req2 /\ body req' = body req2 /\ headers req' = headers req2.
Proof.
  intros Hmail Hpw Hne Hfind Hid Hhash Hcmp Hpair Httl Hnow Hreq2.
  exists (updateRefreshToken (_id u) (Some newRefreshToken) s),
         (attach_user (select_public u) req2).
  split; [eapply run_POST_login_success; eassumption |].
  destruct (issue_pair_inv env _ _ _ _ Hpair)
    as (ak & attl' & rk & rttl & Hak & Hattl & _ & _ & Hta & _ & Hat & _).
  assert (attl' = attl) as -> by congruence.
  split; [| repeat split].
  2: { intros p. rewrite Hat, decode_encode. now intros [= <-]. }
  assert (accessToken <> "") as Hne_at by (rewrite Hat; apply encode_nonempty).
  assert (presented_access_token req2 = Some accessToken) as Htok.
  { unfold presented_access_token.
    destruct Hreq2 as [Hc | [Hc Hh]].
    - rewrite Hc. unfold js_or. now apply truthy_Some in Hne_at as ->.
    - rewrite Hc, Hh. unfold fmap, option_fmap, option_map.
      rewrite remove_first_prefix. reflexivity. }
  rewrite (run_verifyJWT env _ _ _ _ Htok Hne_at).
  unfold authenticated_subject.
  rewrite Hat at 1. rewrite decode_encode, Hak, Hta.
  rewrite Hat at 1. rewrite signature_encode. cbn [andb exp tok_id].
  assert ((now2 <? now + attl)%Z = true) as -> by (apply Z.ltb_lt; exact Hnow).
  rewrite findById_update, Hid. reflexivity.
Qed.

End Lawful.

(** ** The handlers on the small deployment *)
Module ScenarioFacts.
Import Scenario RefCodecLaws.

(** The end-to-end run of the specification: login, refresh, replay of the
    used token, refresh with the new one. *)
Example end_to_end :
  run (POST_login env0 login_alice 1000) store0 =
    (Returned (logged_in env0 (select_public alice) T1a T1r), store1) /\
  run (POST_refresh_token env0 (refresh_with T1r) 1060) store1 =
    (Returned (refreshed env0 T2a T2r), store2) /\
  run (POST_refresh_token env0 (refresh_with T1r) 1120) store2 =
    (Returned (errorHandler refresh_failed), store2) /\
  (exists r s, run (POST_refresh_token env0 (refresh_with T2r) 1120) store2 = (Returned r, s)
               /\ status r = 200).
Proof.
  repeat split; try (vm_compute; reflexivity).
  eexists _, _. split; vm_compute; reflexivity.
Qed.

Lemma refresh_malformed_token :
  run (POST_refresh_token env0 (refresh_with "garbage") 1060) store1 =
    (Returned (errorHandler refresh_failed), store1) /\
  status (errorHandler refresh_failed) = 500.
Proof.
  apply (refresh_validation_failure_status env0 (refresh_with "garbage") store1 1060 "garbage").
  - reflexivity.
  - discriminate.
  - apply Malformed. reflexivity.
Defined.

Lemma T1r_subject p : jwt_decode T1r = Some p -> tok_id p = "u1".
Proof. unfold T1r. rewrite decode_encode. now intros [= <-]. Qed.

Lemma logout_alice_then_refresh :
  exists r s1,
    run (respond (logoutUser env0 as_alice)) store1 = (Returned r, s1) /\
    status r = 200 /\
    cleared_cookies r =
      [("accessToken", cookie_options env0); ("refreshToken", cookie_options env0)] /\
    slot "u1" s1 = Some (Some T1r) /\
    run (POST_refresh_token env0 (refresh_with T1r) 1060) s1 =
      (Returned (refreshed env0 T2a T2r), updateRefreshToken "u1" (Some T2r) s1) /\
    status (refreshed env0 T2a T2r) = 200.
Proof.
  apply (logout_leaves_refresh_token_valid env0 as_alice (select_public alice)
           store1 T1r (refresh_with T1r) 1060 (set_refreshToken (Some T1r) alice) T2a T2r).
  - reflexivity.
  - reflexivity.
  - vm_compute. discriminate.
  - reflexivity.
  - vm_compute. reflexivity.
  - reflexivity.
Defined.

(** Alice refreshes in the very second she logged in: the rotation signs the
    same claims again, the stored token is the presented one once more, and
    presenting it a second time succeeds. *)
Lemma replay_accepted_within_issuing_second :
  run (POST_refresh_token env0 (refresh_with T1r) 1000) store1 =
    (Returned (refreshed env0 T1a T1r), store1) /\
  exists r2 s2,
    run (POST_refresh_token env0 (refresh_with T1r) 1001) store1 = (Returned r2, s2) /\
    status r2 = 200.
Proof.
  split; [vm_compute; reflexivity |].
  eexists _, _. split; vm_compute; reflexivity.
Qed.

Lemma replay_after_rotation_refused :
  exists u accessToken newRefreshToken,
    refreshed env0 T2a T2r = refreshed env0 accessToken newRefreshToken /\
    slot (_id u) store2 = Some (Some newRefreshToken) /\
    (forall p, jwt_decode T1r = Some p -> tok_id p = _id u) /\
    (forall p, jwt_decode T1r = Some p -> iat p <> 1060 -> newRefreshToken <> T1r) /\
    (newRefreshToken <> T1r ->
     forall req2 now2, presented_refresh_token req2 = Some T1r ->
       exists r2, run (POST_refresh_token env0 req2 now2) store2 = (Returned r2, store2) /\
                  status r2 <> 200).
Proof.
  apply (used_refresh_token_superseded env0 (refresh_with T1r) store1 1060 T1r
           (refreshed env0 T2a T2r) store2).
  - reflexivity.
  - vm_compute. discriminate.
  - vm_compute. reflexivity.
  - reflexivity.
Defined.

(** Two refreshes with Alice's stored token, one at second 1060 and one at
    second 1061, each reading before the other saves: both are answered 200. *)
Lemma concurrent_refreshes_not_exclusive :
  let '(p, q, _) :=
    interleave both_read_first
      (POST_refresh_token env0 (refresh_with T1r) 1060)
      (POST_refresh_token env0 (refresh_with T1r) 1061) store1 in
  status_of p = Some 200 /\ status_of q = Some 200.
Proof. vm_compute. split; reflexivity. Qed.

(** The same two requests one after the other: the second is refused. *)
Example sequential_refreshes :
  let '(p, q, s) :=
    interleave [true; true; true; false; false; false]
      (POST_refresh_token env0 (refresh_with T1r) 1060)
      (POST_refresh_token env0 (refresh_with T1r) 1061) store1 in
  status_of p = Some 200 /\ status_of q = Some 500 /\ s = store2.
Proof. vm_compute. repeat split; reflexivity. Qed.

Lemma concurrent_refreshes_alice :
  exists s2,
    interleave [false; true; true; false; false; true]
      (POST_refresh_token env0 (refresh_with T1r) 1060)
      (POST_refresh_token env0 (refresh_with T1r) 1061) store1 =
    (Ret (refreshed env0 T2a T2r),
     Ret (refreshed env0
            (jwt_encode (mkPayload "u1" (Some "alice@example.com") (Some "alice")
                           (Some "Alice") 1061 1961) "access-secret")
            (jwt_encode (mkPayload "u1" None None None 1061 865061) "refresh-secret")),
     s2) /\
    status (refreshed env0 T2a T2r) = 200 /\
    status (refreshed env0
              (jwt_encode (mkPayload "u1" (Some "alice@example.com") (Some "alice")
                             (Some "Alice") 1061 1961) "access-secret")
              (jwt_encode (mkPayload "u1" None None None 1061 865061) "refresh-secret")) = 200 /\
    slot "u1" s2 = Some (Some T2r).
Proof.
  apply (concurrent_refreshes_both_succeed env0 (refresh_with T1r) (refresh_with T1r)
           store1 T1r 1060 1061 (set_refreshToken (Some T1r) alice) _ _ _ _
           [false; true; true; false; false; true]).
  - reflexivity.
  - reflexivity.
  - vm_compute. discriminate.
  - vm_compute. reflexivity.
  - vm_compute. reflexivity.
  - reflexivity.
  - reflexivity.
  - reflexivity.
Defined.

Lemma wrong_password_is_400_not_401 :
  exists r,
    run (POST_login env0 login_alice_wrong_password 1000) store0 = (Returned r, store0) /\
    status r = 400 /\ status r <> 401.
Proof.
  eexists. split; [vm_compute; reflexivity |]. split; [reflexivity | discriminate].
Qed.

Lemma login_alice_wrong_password_400 :
  run (loginUser env0 login_alice_wrong_password 1000) store0 =
    (Raised (ApiError 400 "Invalid user credentials"), store0) /\
  exists r,
    run (POST_login env0 login_alice_wrong_password 1000) store0 = (Returned r, store0) /\
    status r = 400 /\ set_cookies r = [] /\ json r = ErrorEnvelope 400.
Proof.
  apply (login_wrong_password_400 env0 login_alice_wrong_password store0 1000
           "letmein" alice "$2b$12$Secret123*").
  - reflexivity.
  - reflexivity.
  - discriminate.
  - reflexivity.
  - reflexivity.
  - reflexivity.
Defined.

(** Alice's registered username and her correct password, without the email
    field: the login is refused. *)
Lemma login_by_username_alone_refused :
  findOne (Some "alice") None store0 = Some alice /\
  bcrypt_compare "Secret123*" "$2b$12$Secret123*" = true /\
  run (POST_login env0 login_alice_by_username 1000) store0 =
    (Returned (errorHandler (ApiError 400 "Email is required")), store0).
Proof. repeat split; vm_compute; reflexivity. Qed.

(** The schema's setters at work: Alice's email in capitals and with
    padding finds her document, and the login succeeds. *)
Example login_alice_in_capitals :
  findOne None (Some "  ALICE@Example.COM ") store0 = Some alice /\
  run (POST_login env0 (json_body [("email", "  ALICE@Example.COM "); ("password", "Secret123*")])
         1000) store0 =
    (Returned (logged_in env0 (select_public alice) T1a T1r), store1).
Proof. split; vm_compute; reflexivity. Qed.

(** Alice is registered and supplies her username and her right password,
    without an email field: she gets no tokens. *)
Lemma login_without_email_issues_no_tokens :
  In alice store0 /\ username alice = "alice" /\
  password alice = Some "$2b$12$Secret123*" /\
  bcrypt_compare "Secret123*" "$2b$12$Secret123*" = true /\
  body login_alice_by_username !! "username" = Some "alice" /\
  body login_alice_by_username !! "password" = Some "Secret123*" /\
  exists r,
    run (POST_login env0 login_alice_by_username 1000) store0 = (Returned r, store0) /\
    status r = 400 /\ set_cookies r = [] /\ json r = ErrorEnvelope 400.
Proof.
  split; [left; reflexivity |]. do 5 (split; [vm_compute; reflexivity |]).
  eexists. split; [vm_compute; reflexivity |]. repeat split.
Qed.

Lemma login_alice_succeeds :
  run (POST_login env0 login_alice 1000) store0 =
    (Returned (logged_in env0 (select_public alice) T1a T1r),
     updateRefreshToken "u1" (Some T1r) store0).
Proof.
  apply (proj1 (login_lookup_by_username_or_email env0 login_alice store0 1000)
           "Secret123*" alice "$2b$12$Secret123*" T1a T1r).
  - reflexivity.
  - reflexivity.
  - discriminate.
  - reflexivity.
  - reflexivity.
  - reflexivity.
  - reflexivity.
  - reflexivity.
Defined.

Lemma login_alice_then_authenticate :
  exists s1 req',
    run (POST_login env0 login_alice 1000) store0 =
      (Returned (logged_in env0 (select_public alice) T1a T1r), s1) /\
    run (verifyJWT env0 (with_bearer T1a) 1500) s1 = (Returned req', s1) /\
    user req' = Some (select_public alice) /\
    _id (select_public alice) = "u1" /\
    (forall p, jwt_decode T1a = Some p -> tok_id p = "u1") /\
    cookies req' = cookies (with_bearer T1a) /\ body req' = body (with_bearer T1a) /\
    headers req' = headers (with_bearer T1a).
Proof.
  apply (login_then_authenticate env0 login_alice store0 1000 "Secret123*" alice
           "$2b$12$Secret123*" T1a T1r 900 (with_bearer T1a) 1500).
  - reflexivity.
  - reflexivity.
  - discriminate.
  - reflexivity.
  - reflexivity.
  - reflexivity.
  - reflexivity.
  - reflexivity.
  - reflexivity.
  - lia.
  - right. split; reflexivity.
Defined.

Lemma expired_T1a_rejected :
  exists msg,
    run (verifyJWT env0 (with_cookie "accessToken" T1a) 1900) store1 =
      (Raised (ApiError 401 msg), store1) /\
    run (respond (verifyJWT env0 (with_cookie "accessToken" T1a) 1900 ≫= logoutUser env0)) store1 =
      (Returned (errorHandler (ApiError 401 msg)), store1) /\
    status (errorHandler (ApiError 401 msg)) = 401.
Proof.
  apply (expired_access_token_rejected env0 (with_cookie "accessToken" T1a) store1 1900 T1a
           (mkPayload "u1" (Some "alice@example.com") (Some "alice") (Some "Alice") 1000 1900)
           (logoutUser env0)).
  - reflexivity.
  - apply decode_encode.
  - simpl. lia.
Defined.

(** The stored token sent in the body field [refreshAccessToken] is rotated
    as it would be from the cookie; sent in a body field named
    [refreshToken] it is not read. *)
Lemma refresh_body_fields :
  (run (POST_refresh_token env0 (json_body [("refreshAccessToken", T1r)]) 1060) store1 =
     (Returned (refreshed env0 T2a T2r), updateRefreshToken "u1" (Some T2r) store1) /\
   status (refreshed env0 T2a T2r) = 200) /\
  run (POST_refresh_token env0 (json_body [("refreshAccessToken", T1r)]) 1060) store1 =
    run (POST_refresh_token env0 (refresh_with T1r) 1060) store1 /\
  (run (refreshAccessToken env0 (json_body [("refreshToken", T1r)]) 1060) store1 =
     (Raised (ApiError 401 "Refresh token is required"), store1) /\
   run (POST_refresh_token env0 (json_body [("refreshToken", T1r)]) 1060) store1 =
     (Returned (errorHandler (ApiError 401 "Refresh token is required")), store1) /\
   status (errorHandler (ApiError 401 "Refresh token is required")) = 401).
Proof.
  assert (T1r <> "") as Hne by (vm_compute; discriminate).
  split; [| split].
  - apply (proj1 (proj2 (proj1 (refresh_body_field_is_refreshAccessToken env0
                    (json_body [("refreshAccessToken", T1r)]) store1 1060 eq_refl)
                    T1r eq_refl Hne))
             (set_refreshToken (Some T1r) alice) T2a T2r).
    + vm_compute. reflexivity.
    + reflexivity.
  - apply (proj1 (proj1 (refresh_body_field_is_refreshAccessToken env0
                    (json_body [("refreshAccessToken", T1r)]) store1 1060 eq_refl)
                    T1r eq_refl Hne)).
    reflexivity.
  - apply (proj2 (proj2 (refresh_body_field_is_refreshAccessToken env0
                  (json_body [("refreshToken", T1r)]) store1 1060 eq_refl))).
    reflexivity.
Defined.

Lemma login_alice_profile_is_public :
  (password (select_public alice) = None /\ refreshToken (select_public alice) = None) /\
  exists identity,
    user (attach_user (select_public (set_refreshToken (Some T1r) alice)) (with_bearer T1a))
      = Some identity /\
    password identity = None /\ refreshToken identity = None.
Proof.
  split.
  - apply (proj1 (profiles_exclude_password_and_refreshToken env0 login_alice 1000 store0)
             (logged_in env0 (select_public alice) T1a T1r) store1 200
             (select_public alice) T1a T1r "User logged in successfully").
    + vm_compute. reflexivity.
    + reflexivity.
  - apply (proj2 (profiles_exclude_password_and_refreshToken env0 (with_bearer T1a) 1500 store1)
             _ store1).
    vm_compute. reflexivity.
Defined.

End ScenarioFacts.

(** * More of the code *)

(** ** The store under slot and password writes *)

Lemma findById_update_other id id' tok s :
  id <> id' -> findById id' (updateRefreshToken id tok s) = findById id' s.
Proof.
  intros Hne. induction s as [|u rest IH]; simpl; [reflexivity |].
  destruct (String.eqb_spec (_id u) id) as [E|E]; simpl.
  - destruct (String.eqb_spec (_id u) id'); [congruence | reflexivity].
  - destruct (String.eqb (_id u) id'); [reflexivity | exact IH].
Qed.

Lemma select_public_update id id' tok s :
  select_public <$> findById id' (updateRefreshToken id tok s) =
  select_public <$> findById id' s.
Proof.
  induction s as [|u rest IH]; simpl; [reflexivity |].
  destruct (String.eqb (_id u) id) eqn:E; simpl.
  - destruct (String.eqb (_id u) id'); reflexivity.
  - destruct (String.eqb (_id u) id'); [reflexivity | exact IH].
Qed.

Section MoreProperties.

Context `{JwtCodec} `{Bcrypt}.
Variable env : Env.

Lemma authenticated_subject_update id slot_value s tok now :
  authenticated_subject env (updateRefreshToken id slot_value s) tok now =
  authenticated_subject env s tok now.
Proof.
  unfold authenticated_subject.
  destruct (jwt_decode tok) as [p|]; [| reflexivity].
  destruct (ACCESS_TOKEN_SECRET env); [| reflexivity].
  destruct (_ && _ && _); [| reflexivity].
  apply select_public_update.
Qed.

Lemma run_verifyJWT_cases req now s :
  run (verifyJWT env req now) s =
  match presented_access_token req with
  | Some tok =>
      if truthy (Some tok) then
        match authenticated_subject env s tok now with
        | Some u => (Returned (attach_user u req), s)
        | None => (Raised token_failed, s)
        end
      else (Raised no_token, s)
  | None => (Raised no_token, s)
  end.
Proof.
  destruct (presented_access_token req) as [tok|] eqn:Htok.
  - destruct (truthy (Some tok)) eqn:Ht.
    + apply truthy_Some in Ht. now apply run_verifyJWT.
    + apply run_verifyJWT_no_token. now rewrite Htok.
  - apply run_verifyJWT_no_token. now rewrite Htok.
Qed.

(** ** The guard *)

(** X1. [verifyJWT] never writes to the store, and when it refuses a request
    the error is an [ApiError(401)]: "no token" exactly when no non-empty
    token is presented, "token failed" otherwise. *)
Theorem guard_reads_only_and_refuses_with_401 req now s :
  snd (run (verifyJWT env req now) s) = s /\
  (forall e, fst (run (verifyJWT env req now) s) = Raised e ->
     status (errorHandler e) = 401 /\
     (truthy (presented_access_token req) = false /\ e = no_token \/
      truthy (presented_access_token req) = true /\ e = token_failed)).
Proof.
  rewrite run_verifyJWT_cases.
  destruct (presented_access_token req) as [tok|].
  - destruct (truthy (Some tok)) eqn:Ht.
    + destruct (authenticated_subject env s tok now).
      * split; [reflexivity | discriminate].
      * split; [reflexivity |]. intros e [= <-]. split; [reflexivity | now right].
    + split; [reflexivity |]. intros e [= <-]. split; [reflexivity | now left].
  - split; [reflexivity |]. intros e [= <-]. split; [reflexivity | now left].
Qed.

(** X2. [verifyJWT] lets a request with a non-empty token through exactly
    when the token parses, its signature verifies under a non-empty
    [ACCESS_TOKEN_SECRET], it has not expired and its subject is in the
    store; the identity attached is that user without password and refresh
    token. *)
Theorem guard_accepts_iff req now s tok identity :
  presented_access_token req = Some tok -> tok <> "" ->
  run (verifyJWT env req now) s = (Returned (attach_user identity req), s) <->
  exists key p stored,
    ACCESS_TOKEN_SECRET env = Some key /\ key <> "" /\
    jwt_decode tok = Some p /\ jwt_signature_ok tok key = true /\ now < exp p /\
    findById (tok_id p) s = Some stored /\ identity = select_public stored.
Proof.
  intros Htok Hne. rewrite (run_verifyJWT env _ _ _ _ Htok Hne).
  unfold authenticated_subject. split.
  - destruct (jwt_decode tok) as [p|]; [| discriminate].
    destruct (ACCESS_TOKEN_SECRET env) as [key|]; [| discriminate].
    destruct (truthy (Some key)) eqn:Hk; cbn [andb]; [| discriminate].
    destruct (jwt_signature_ok tok key) eqn:Hsig; cbn [andb]; [| discriminate].
    destruct (Z.ltb_spec now (exp p)) as [Hexp|]; [| discriminate].
    destruct (findById (tok_id p) s) as [stored|] eqn:Hu; [| discriminate].
    unfold attach_user. simpl. intros [= <-]. apply truthy_Some in Hk.
    exists key, p, stored. repeat split; auto.
  - intros (key & p & stored & Hkey & Hk & Hd & Hsig & Hexp & Hu & ->).
    apply truthy_Some in Hk. apply Z.ltb_lt in Hexp.
    now rewrite Hd, Hkey, Hk, Hsig, Hexp, Hu.
Qed.

(** X3. The [accessToken] cookie takes precedence over the [Authorization]
    header: with a non-empty cookie the header is not consulted, so a cookie
    that does not authenticate is refused whatever the header carries. *)
Theorem guard_cookie_shadows_header req now s tok :
  cookies req !! "accessToken" = Some tok -> tok <> "" ->
  authenticated_subject env s tok now = None ->
  forall hdrs,
    run (verifyJWT env (mkRequest (cookies req) (body req) hdrs (user req)) now) s =
    (Raised token_failed, s).
Proof.
  intros Hc Hne Hnone hdrs.
  assert (presented_access_token (mkRequest (cookies req) (body req) hdrs (user req)) = Some tok)
    as Htok.
  { unfold presented_access_token. cbn [cookies headers]. rewrite Hc. unfold js_or.
    now apply truthy_Some in Hne as ->. }
  now rewrite (run_verifyJWT env _ _ _ _ Htok Hne), Hnone.
Qed.

(** X4. Access tokens outlive the session: what the guard answers does not
    depend on any refresh-token slot, so a request that authenticated before
    a logout authenticates after it. *)
Theorem access_token_survives_logout req now s reqL :
  (forall id slot_value,
     fst (run (verifyJWT env req now) (updateRefreshToken id slot_value s)) =
     fst (run (verifyJWT env req now) s)) /\
  fst (run (verifyJWT env req now) (snd (run (respond (logoutUser env reqL)) s))) =
  fst (run (verifyJWT env req now) s).
Proof.
  assert (forall id slot_value,
            fst (run (verifyJWT env req now) (updateRefreshToken id slot_value s)) =
            fst (run (verifyJWT env req now) s)) as Hupd.
  { intros id v. rewrite !run_verifyJWT_cases.
    destruct (presented_access_token req) as [tok|]; [| reflexivity].
    destruct (truthy (Some tok)); [| reflexivity].
    rewrite authenticated_subject_update.
    now destruct (authenticated_subject env s tok now). }
  split; [exact Hupd |].
  unfold respond, asyncHandler, logoutUser.
  destruct (user reqL) as [u|]; reflexivity.
Qed.


(** ** Refresh *)

(** X5. A refresh request with a non-empty token is answered 200 exactly
    when [REFRESH_TOKEN_SECRET] is set, the token parses, its signature
    verifies, it has not expired, its subject is in the store, it is the
    string stored in that user's slot, and the token configuration is
    complete. *)
Theorem refresh_succeeds_iff req now s tok :
  presented_refresh_token req = Some tok -> tok <> "" ->
  (exists r s', run (POST_refresh_token env req now) s = (Returned r, s') /\ status r = 200) <->
  exists key p u,
    REFRESH_TOKEN_SECRET env = Some key /\ key <> "" /\
    jwt_decode tok = Some p /\ jwt_signature_ok tok key = true /\ now < exp p /\
    findById (tok_id p) s = Some u /\ refreshToken u = Some tok /\
    issue_pair env u now <> None.
Proof.
  intros Htok Hne. rewrite (run_POST_refresh_token env _ _ _ _ Htok Hne). split.
  - intros (r & s' & Hrun & Hst).
    destruct (accepted_subject env s tok now) as [u|] eqn:Hacc;
      [| injection Hrun as <- _; discriminate].
    destruct (accepted_subject_inv env _ _ _ _ Hacc)
      as (key & p & Hkey & Hk & Hd & Hsig & Hexp & Hu & Hstored).
    apply truthy_Some in Hk. exists key, p, u. repeat split; auto.
    destruct (issue_pair env u now); [discriminate |].
    injection Hrun as <- _. discriminate.
  - intros (key & p & u & Hkey & Hk & Hd & Hsig & Hexp & Hu & Hstored & Hpair).
    assert (accepted_subject env s tok now = Some u) as ->.
    { unfold accepted_subject. apply truthy_Some in Hk. apply Z.ltb_lt in Hexp.
      rewrite Hkey, Hd, Hk, Hsig, Hexp, Hu, Hstored. cbn [andb strict_ne].
      now rewrite String.eqb_refl. }
    destruct (issue_pair env u now) as [[a r]|]; [| congruence].
    eexists _, _. split; reflexivity.
Qed.

Lemma run_POST_refresh_token_no_token req now s :
  truthy (presented_refresh_token req) = false ->
  run (POST_refresh_token env req now) s =
  (Returned (errorHandler (ApiError 401 "Refresh token is required")), s).
Proof.
  unfold POST_refresh_token, respond, asyncHandler, refreshAccessToken, presented_refresh_token.
  intros Hf. destruct (js_or _ _) as [tok|]; [| reflexivity]. now rewrite Hf.
Qed.

(** X6. Every refresh request gets a response, with status 200, 401 or 500;
    the status is 401 exactly when no non-empty token is presented, and
    unless it is 200 the store is unchanged. *)
Theorem refresh_outcomes req now s :
  exists r s',
    run (POST_refresh_token env req now) s = (Returned r, s') /\
    (status r = 200 \/ status r = 401 \/ status r = 500) /\
    (status r = 401 <-> truthy (presented_refresh_token req) = false) /\
    (status r <> 200 -> s' = s).
Proof.
  destruct (truthy (presented_refresh_token req)) eqn:Ht.
  - destruct (presented_refresh_token req) as [tok|] eqn:Htok; [| discriminate].
    apply truthy_Some in Ht. rewrite (run_POST_refresh_token env _ _ _ _ Htok Ht).
    destruct (accepted_subject env s tok now) as [u|].
    + destruct (issue_pair env u now) as [[a r]|]; eexists _, _;
        (split; [reflexivity |]); simpl;
        (split; [auto |]); (split; [split; [lia | discriminate] |]); intros; try reflexivity; lia.
    + eexists _, _. split; [reflexivity |]. simpl.
      split; [auto |]. split; [split; [lia | discriminate] | reflexivity].
  - rewrite (run_POST_refresh_token_no_token _ _ _ Ht).
    eexists _, _. split; [reflexivity |]. simpl.
    split; [auto |]. split; [split; reflexivity | reflexivity].
Qed.

(** ** Login *)

(** X7. Every login request gets a response, with status 200, 400, 404 or
    500, and unless the status is 200 the store is unchanged: a failed
    login never installs a refresh token. *)
Theorem login_outcomes req now s :
  exists r s',
    run (POST_login env req now) s = (Returned r, s') /\
    (status r = 200 \/ status r = 400 \/ status r = 404 \/ status r = 500) /\
    (status r <> 200 -> s' = s).
Proof.
  unfold POST_login, respond, asyncHandler. rewrite run_try_catch, run_loginUser.
  destruct (negb _ || negb _);
    [eexists _, _; split; [reflexivity |]; simpl; auto |].
  destruct (findOne _ _ s) as [u|];
    [| eexists _, _; split; [reflexivity |]; simpl; auto].
  destruct (password u) as [hashed|];
    [| eexists _, _; split; [reflexivity |]; simpl; auto 6].
  destruct (bcrypt_compare _ hashed);
    [| eexists _, _; split; [reflexivity |]; simpl; auto].
  destruct (findById (_id u) s) as [u0|];
    [| eexists _, _; split; [reflexivity |]; simpl; auto 6].
  destruct (issue_pair env u0 now) as [[a r]|];
    eexists _, _; (split; [reflexivity |]); simpl; [| auto 6].
  split; [auto | intros; lia].
Qed.

Lemma login_success_inv req now s r s1 :
  run (POST_login env req now) s = (Returned r, s1) -> status r = 200 ->
  exists u u0 accessToken newRefreshToken,
    findOne (body req !! "username") (body req !! "email") s = Some u /\
    findById (_id u) s = Some u0 /\
    issue_pair env u0 now = Some (accessToken, newRefreshToken) /\
    r = logged_in env (select_public u0) accessToken newRefreshToken /\
    s1 = updateRefreshToken (_id u) (Some newRefreshToken) s.
Proof.
  unfold POST_login, respond, asyncHandler. rewrite run_try_catch, run_loginUser.
  destruct (negb _ || negb _); [intros [= <- _]; discriminate |].
  destruct (findOne _ _ s) as [u|] eqn:Hu; [| intros [= <- _]; discriminate].
  destruct (password u) as [hashed|]; [| intros [= <- _]; discriminate].
  destruct (bcrypt_compare _ hashed); [| intros [= <- _]; discriminate].
  destruct (findById (_id u) s) as [u0|] eqn:Hu0; [| intros [= <- _]; discriminate].
  destruct (issue_pair env u0 now) as [[a t]|] eqn:Hp; [| intros [= <- _]; discriminate].
  intros [= <- <-] _. now exists u, u0, a, t.
Qed.


(** ** What a 200 delivers *)

(** X9. A 200 answer of login or refresh sets exactly the two cookies
    [accessToken] and [refreshToken], http-only and secure exactly in
    production, carrying the same two tokens as the body; and the refresh
    token it delivers is the one now stored in a slot. *)
Theorem tokens_delivered_in_cookies_and_body req now s r s' :
  run (POST_login env req now) s = (Returned r, s') \/
  run (POST_refresh_token env req now) s = (Returned r, s') ->
  status r = 200 ->
  exists accessToken newRefreshToken id,
    body_tokens (json r) = Some (accessToken, newRefreshToken) /\
    set_cookies r = [("accessToken", accessToken, cookie_options env);
                     ("refreshToken", newRefreshToken, cookie_options env)] /\
    cleared_cookies r = [] /\
    slot id s' = Some (Some newRefreshToken) /\
    httpOnly (cookie_options env) = true /\
    (secure (cookie_options env) = true <-> NODE_ENV env = Some "production").
Proof.
  intros [Hrun | Hrun] Hst.
  - destruct (login_success_inv _ _ _ _ _ Hrun Hst)
      as (u & u0 & a & t & _ & Hu0 & _ & -> & ->).
    exists a, t, (_id u). repeat split; try reflexivity.
    + unfold slot. now rewrite findById_update, Hu0.
    + simpl. apply bool_decide_eq_true_1.
    + simpl. apply bool_decide_eq_true_2.
  - destruct (truthy (presented_refresh_token req)) eqn:Ht.
    + destruct (presented_refresh_token req) as [tok|] eqn:Htok; [| discriminate].
      apply truthy_Some in Ht.
      destruct (refresh_success_inv env _ _ _ _ _ _ Htok Ht Hrun Hst)
        as (u & a & t & Hacc & _ & -> & ->).
      destruct (accepted_subject_inv env _ _ _ _ Hacc) as (_ & p & _ & _ & _ & _ & _ & Hu & _).
      exists a, t, (_id u). repeat split; try reflexivity.
      * unfold slot. rewrite findById_update, (findById_id _ _ _ Hu), Hu. reflexivity.
      * simpl. apply bool_decide_eq_true_1.
      * simpl. apply bool_decide_eq_true_2.
    + rewrite (run_POST_refresh_token_no_token _ _ _ Ht) in Hrun.
      injection Hrun as <- _. discriminate.
Qed.


(** ** Token generation *)

(** X10. [generateAccessAndRefreshToken] fails in one way only, with an
    [ApiError(500)], and then the store is unchanged: its own 404 for an
    unknown user is caught by its [catch], and nothing is saved unless both
    tokens were signed.  When it returns, it has stored the refresh token it
    returns in the slot of that user. *)
Theorem token_generation_outcomes id now s :
  (findById id s = None ->
   run (generateAccessAndRefreshToken env id now) s = (Raised generation_failed, s)) /\
  (forall e s', run (generateAccessAndRefreshToken env id now) s = (Raised e, s') ->
     e = generation_failed /\ s' = s) /\
  (forall accessToken newRefreshToken s',
     run (generateAccessAndRefreshToken env id now) s =
       (Returned (accessToken, newRefreshToken), s') ->
     slot id s' = Some (Some newRefreshToken) /\
     forall id', id' <> id -> findById id' s' = findById id' s).
Proof.
  rewrite run_generate. split; [| split].
  - now intros ->.
  - intros e s'. destruct (findById id s) as [u|]; [| now intros [= <- <-]].
    destruct (issue_pair env u now) as [[a r]|]; [discriminate | now intros [= <- <-]].
  - intros a r s'. destruct (findById id s) as [u|] eqn:Hu; [| discriminate].
    destruct (issue_pair env u now) as [[a' r']|]; [| discriminate].
    intros [= <- <- <-]. split.
    + unfold slot. now rewrite findById_update, Hu.
    + intros id' Hne. apply findById_update_other. congruence.
Qed.

(** ** Logout *)



(** ** A refresh and a logout in flight *)

(** X13. A refresh that has read the user before a logout runs is not
    stopped by it: the logout is answered 200, then the refresh saves its
    new token into the slot and is answered 200, so the user is left with a
    valid refresh token after logging out. *)
Theorem refresh_in_flight_survives_logout reqR reqL s tok atok nowR nowL u identity
    accessToken newRefreshToken :
  presented_refresh_token reqR = Some tok -> tok <> "" ->
  accepted_subject env s tok nowR = Some u ->
  issue_pair env u nowR = Some (accessToken, newRefreshToken) ->
  presented_access_token reqL = Some atok -> atok <> "" ->
  authenticated_subject env s atok nowL = Some identity -> _id identity = _id u ->
  exists s2,
    interleave [true; false; false; true; true]
      (POST_refresh_token env reqR nowR) (POST_logout env reqL nowL) s =
    (Ret (refreshed env accessToken newRefreshToken), Ret (logged_out env), s2) /\
    slot (_id u) s2 = Some (Some newRefreshToken).
Proof.
  intros HtR HneR Hacc Hpair HtL HneL Hauth Hsame.
  destruct (accepted_subject_inv env _ _ _ _ Hacc)
    as (key & p & Hkey & Hk & Hd & Hsig & Hexp & Hu & Hstored).
  pose proof (findById_id _ _ _ Hu) as Hid.
  assert (findById (_id u) s = Some u) as Hu' by (rewrite Hid; exact Hu).
  exists (updateRefreshToken (_id u) (Some newRefreshToken) s).
  split.
  2: { unfold slot. now rewrite !findById_update, Hu'. }
  destruct (issue_pair_inv env _ _ _ _ Hpair)
    as (ak & attl & rk & rttl & Hak & Hattl & Hrk & Hrttl & Hta & Htr & -> & ->).
  assert (exists q stored, jwt_decode atok = Some q /\ jwt_signature_ok atok ak = true /\
            (exp q <=? nowL)%Z = false /\ findById (tok_id q) s = Some stored /\
            identity = select_public stored) as (q & stored & Hdq & Hsq & Hexpq & Huq & ->).
  { unfold authenticated_subject in Hauth.
    destruct (jwt_decode atok) as [q|] eqn:Hdq; [| discriminate].
    rewrite Hak, Hta in Hauth. cbn [andb] in Hauth.
    destruct (jwt_signature_ok atok ak) eqn:Hsq; cbn [andb] in Hauth; [| discriminate].
    destruct (Z.ltb_spec nowL (exp q)) as [Hlt|]; [| discriminate].
    destruct (findById (tok_id q) s) as [stored|] eqn:Huq; [| discriminate].
    injection Hauth as <-. exists q, stored. repeat split; auto.
    apply Z.leb_gt. exact Hlt. }
  cbn [select_public _id] in Hsame.
  unfold POST_refresh_token, POST_logout, respond, asyncHandler, refreshAccessToken, verifyJWT.
  unfold presented_refresh_token in HtR. unfold presented_access_token in HtL.
  rewrite HtR, HtL.
  apply truthy_Some in HneR, HneL. rewrite HneR, HneL, Hkey, Hk. cbn [negb].
  unfold jwt_verify. rewrite Hd, Hdq, Hak, Hk, Hta, Hsig, Hsq. cbn [negb].
  apply Z.ltb_lt in Hexp. rewrite Z.ltb_antisym in Hexp. apply negb_true_iff in Hexp.
  rewrite Hexp, Hexpq.
  cbn [interleave step mbind Db_bind bind try_catch].
  rewrite Hu, Hstored, Huq. cbn [strict_ne]. rewrite String.eqb_refl. cbn [negb].
  unfold generateAccessAndRefreshToken, generateAccessToken, generateRefreshToken,
    jwt_sign, save_refreshToken, logoutUser, findByIdAndUpdate_refreshToken.
  cbn [fmap option_fmap option_map step mbind Db_bind bind try_catch user attach_user
       select_public _id].
  rewrite ?findById_update, Hu'.
  assert (rk = key) as -> by congruence.
  rewrite Hak, Hattl, Hkey, Hrttl, Hta, Hk.
  cbn [fmap option_fmap option_map step mbind Db_bind bind try_catch
       set_refreshToken _id email username fullname].
  rewrite !findById_update, Hu'.
  reflexivity.
Qed.

(** X14. A login replaces the session: once a login has succeeded, no token
    other than the refresh token it issued is accepted for that user, so a
    refresh token of an earlier login is refused. *)
Theorem login_supersedes_earlier_tokens req now s profile accessToken newRefreshToken s1 :
  run (POST_login env req now) s =
    (Returned (logged_in env profile accessToken newRefreshToken), s1) ->
  forall req2 now2 tok,
    presented_refresh_token req2 = Some tok -> tok <> newRefreshToken ->
    (forall p, jwt_decode tok = Some p -> tok_id p = _id profile) ->
    exists r2, run (POST_refresh_token env req2 now2) s1 = (Returned r2, s1) /\
               status r2 <> 200.
Proof.
  intros Hrun req2 now2 tok Htok Hdiff Hsub.
  destruct (login_success_inv _ _ _ _ _ Hrun eq_refl)
    as (u & u0 & a & t & _ & Hu0 & _ & Hr & ->).
  injection Hr as -> -> ->.
  pose proof (findById_id _ _ _ Hu0) as Hid. cbn [select_public _id] in Hsub.
  destruct (String.eqb_spec tok "") as [-> | Hne].
  - rewrite run_POST_refresh_token_no_token by now rewrite Htok.
    eexists. split; [reflexivity | discriminate].
  - rewrite (run_POST_refresh_token env _ _ _ _ Htok Hne).
    assert (accepted_subject env (updateRefreshToken (_id u) (Some t) s) tok now2 = None) as ->.
    { unfold accepted_subject.
      destruct (REFRESH_TOKEN_SECRET env); [| reflexivity].
      destruct (jwt_decode tok) as [p|] eqn:Hd; [| reflexivity].
      destruct (_ && _ && _); [| reflexivity].
      rewrite (Hsub p eq_refl), Hid, findById_update, Hu0. cbn [fmap option_fmap option_map].
      cbn [set_refreshToken refreshToken strict_ne].
      destruct (String.eqb_spec tok t); [congruence | reflexivity]. }
    eexists. split; [reflexivity | discriminate].
Qed.
End MoreProperties.

(** ** More that rests on the codec laws *)
Section MoreLawful.

Context `{JwtLawful} `{Bcrypt}.
Variable env : Env.

Lemma issue_pair_configured u now accessToken newRefreshToken v now' :
  issue_pair env u now = Some (accessToken, newRefreshToken) ->
  issue_pair env v now' <> None.
Proof.
  intros Hpair.
  destruct (issue_pair_inv env _ _ _ _ Hpair)
    as (ak & attl & rk & rttl & Hak & Hattl & Hrk & Hrttl & Hta & Htr & _).
  unfold issue_pair. rewrite Hak, Hattl, Hrk, Hrttl, Hta, Htr. discriminate.
Qed.

(** The refresh token just issued and stored is accepted until it
    expires. *)
Lemma issued_token_accepted u now accessToken newRefreshToken rttl s1 v now2 :
  issue_pair env u now = Some (accessToken, newRefreshToken) ->
  REFRESH_TOKEN_EXPIRY env = Some rttl -> now2 < now + rttl ->
  findById (_id u) s1 = Some v -> refreshToken v = Some newRefreshToken ->
  accepted_subject env s1 newRefreshToken now2 = Some v.
Proof.
  intros Hpair Httl Hnow Hv Hstored.
  destruct (issue_pair_inv env _ _ _ _ Hpair)
    as (ak & attl & rk & rttl' & _ & _ & Hrk & Hrttl & _ & Htr & _ & Hr).
  assert (rttl' = rttl) as -> by congruence.
  unfold accepted_subject. rewrite Hrk, Htr.
  rewrite Hr at 1. rewrite decode_encode.
  rewrite Hr at 1. rewrite signature_encode. cbn [andb exp tok_id].
  apply Z.ltb_lt in Hnow. rewrite Hnow, Hv, Hstored. cbn [strict_ne].
  now rewrite String.eqb_refl.
Qed.

Lemma refresh_with_accepted req now s tok v :
  presented_refresh_token req = Some tok -> tok <> "" ->
  accepted_subject env s tok now = Some v -> issue_pair env v now <> None ->
  exists r s', run (POST_refresh_token env req now) s = (Returned r, s') /\ status r = 200.
Proof.
  intros Htok Hne Hacc Hpair.
  rewrite (run_POST_refresh_token env _ _ _ _ Htok Hne), Hacc.
  destruct (issue_pair env v now) as [[a r]|]; [| congruence].
  eexists _, _. split; reflexivity.
Qed.

(** X15. Rotation hands over: the refresh token a successful refresh returns
    is accepted by the next refresh at any time before it expires. *)
Theorem rotated_token_is_accepted req s now tok accessToken newRefreshToken s1 rttl req2 now2 :
  presented_refresh_token req = Some tok -> tok <> "" ->
  run (POST_refresh_token env req now) s =
    (Returned (refreshed env accessToken newRefreshToken), s1) ->
  REFRESH_TOKEN_EXPIRY env = Some rttl -> now2 < now + rttl ->
  presented_refresh_token req2 = Some newRefreshToken ->
  exists r2 s2, run (POST_refresh_token env req2 now2) s1 = (Returned r2, s2) /\
                status r2 = 200.
Proof.
  intros Htok Hne Hrun Httl Hnow Htok2.
  destruct (refresh_success_inv env _ _ _ _ _ _ Htok Hne Hrun eq_refl)
    as (u & a & r & Hacc & Hpair & Hr & ->).
  injection Hr as -> ->.
  destruct (accepted_subject_inv env _ _ _ _ Hacc) as (_ & p & _ & _ & _ & _ & _ & Hu & _).
  pose proof (findById_id _ _ _ Hu) as Hid.
  assert (r <> "") as Hne2.
  { destruct (issue_pair_inv env _ _ _ _ Hpair) as (? & ? & ? & ? & _ & _ & _ & _ & _ & _ & _ & ->).
    apply encode_nonempty. }
  apply (refresh_with_accepted _ _ _ _ (set_refreshToken (Some r) u) Htok2 Hne2).
  - eapply issued_token_accepted; try eassumption.
    + rewrite findById_update, Hid, Hu. reflexivity.
    + reflexivity.
  - eapply issue_pair_configured. eassumption.
Qed.

(** X16. The refresh token a successful login returns is accepted by a
    refresh at any time before it expires. *)
Theorem login_token_refreshes req s now r s1 accessToken newRefreshToken rttl req2 now2 :
  run (POST_login env req now) s = (Returned r, s1) -> status r = 200 ->
  body_tokens (json r) = Some (accessToken, newRefreshToken) ->
  REFRESH_TOKEN_EXPIRY env = Some rttl -> now2 < now + rttl ->
  presented_refresh_token req2 = Some newRefreshToken ->
  exists r2 s2, run (POST_refresh_token env req2 now2) s1 = (Returned r2, s2) /\
                status r2 = 200.
Proof.
  intros Hrun Hst Hbody Httl Hnow Htok2.
  destruct (login_success_inv env _ _ _ _ _ Hrun Hst)
    as (u & u0 & a & t & _ & Hu0 & Hpair & -> & ->).
  injection Hbody as <- <-.
  pose proof (findById_id _ _ _ Hu0) as Hid.
  assert (t <> "") as Hne2.
  { destruct (issue_pair_inv env _ _ _ _ Hpair) as (? & ? & ? & ? & _ & _ & _ & _ & _ & _ & _ & ->).
    apply encode_nonempty. }
  apply (refresh_with_accepted _ _ _ _ (set_refreshToken (Some t) u0) Htok2 Hne2).
  - eapply issued_token_accepted; try eassumption.
    + rewrite Hid, findById_update, Hu0. reflexivity.
    + reflexivity.
  - eapply issue_pair_configured. eassumption.
Qed.

(** X17. What the two tokens carry: the access token decodes to the user's
    id, email, username and full name, the refresh token to the id alone;
    both are stamped with the second of issue and expire the configured
    span later. *)
Theorem tokens_carry_their_claims u now s :
  (forall accessToken,
     run (generateAccessToken env u now) s = (Returned accessToken, s) ->
     exists ttl, ACCESS_TOKEN_EXPIRY env = Some ttl /\
       jwt_decode accessToken =
         Some (mkPayload (_id u) (Some (email u)) (Some (username u)) (Some (fullname u))
                 now (now + ttl))) /\
  (forall newRefreshToken,
     run (generateRefreshToken env u now) s = (Returned newRefreshToken, s) ->
     exists ttl, REFRESH_TOKEN_EXPIRY env = Some ttl /\
       jwt_decode newRefreshToken =
         Some (mkPayload (_id u) None None None now (now + ttl))).
Proof.
  unfold generateAccessToken, generateRefreshToken, jwt_sign. split.
  - intros a. destruct (ACCESS_TOKEN_SECRET env) as [key|]; [| discriminate].
    destruct (truthy (Some key)); [| discriminate].
    destruct (ACCESS_TOKEN_EXPIRY env) as [ttl|]; [| discriminate].
    simpl. intros [= <-]. exists ttl. split; [reflexivity | apply decode_encode].
  - intros r. destruct (REFRESH_TOKEN_SECRET env) as [key|]; [| discriminate].
    destruct (truthy (Some key)); [| discriminate].
    destruct (REFRESH_TOKEN_EXPIRY env) as [ttl|]; [| discriminate].
    simpl. intros [= <-]. exists ttl. split; [reflexivity | apply decode_encode].
Qed.

(** X18. Nothing in a token says which kind it is: where the two secrets
    are the same string, the guard accepts a refresh token as an access
    token, and does so until the refresh token expires. *)
Theorem shared_secret_refresh_token_authenticates u now accessToken newRefreshToken rttl
    s stored req now2 :
  issue_pair env u now = Some (accessToken, newRefreshToken) ->
  ACCESS_TOKEN_SECRET env = REFRESH_TOKEN_SECRET env ->
  REFRESH_TOKEN_EXPIRY env = Some rttl -> now2 < now + rttl ->
  findById (_id u) s = Some stored ->
  presented_access_token req = Some newRefreshToken ->
  run (verifyJWT env req now2) s = (Returned (attach_user (select_public stored) req), s).
Proof.
  intros Hpair Hsame Httl Hnow Hu Htok.
  destruct (issue_pair_inv env _ _ _ _ Hpair)
    as (ak & attl & rk & rttl' & Hak & _ & Hrk & Hrttl & Hta & _ & _ & Hr).
  assert (rttl' = rttl) as -> by congruence.
  assert (rk = ak) as -> by congruence.
  assert (newRefreshToken <> "") as Hne by (rewrite Hr; apply encode_nonempty).
  rewrite (run_verifyJWT env _ _ _ _ Htok Hne).
  unfold authenticated_subject.
  rewrite Hr at 1. rewrite decode_encode, Hak, Hta.
  rewrite Hr at 1. rewrite signature_encode. cbn [andb exp tok_id].
  apply Z.ltb_lt in Hnow. now rewrite Hnow, Hu.
Qed.

Section Keyed.

Context `{!JwtKeyed}.

(** X19. With two different secrets the kinds do not mix: the guard refuses
    a refresh token (401), and the refresh handler refuses an access token
    (with the 500 of its catch-all) and leaves the store alone. *)
Theorem distinct_secrets_separate_token_kinds u now accessToken newRefreshToken s now2 :
  issue_pair env u now = Some (accessToken, newRefreshToken) ->
  ACCESS_TOKEN_SECRET env <> REFRESH_TOKEN_SECRET env ->
  (forall req, presented_access_token req = Some newRefreshToken ->
     run (verifyJWT env req now2) s = (Raised token_failed, s)) /\
  (forall req, presented_refresh_token req = Some accessToken ->
     run (POST_refresh_token env req now2) s = (Returned (errorHandler refresh_failed), s)).
Proof.
  intros Hpair Hdiff.
  destruct (issue_pair_inv env _ _ _ _ Hpair)
    as (ak & attl & rk & rttl & Hak & _ & Hrk & _ & _ & _ & Ha & Hr).
  assert (rk <> ak) as Hkeys by (intros ->; apply Hdiff; congruence).
  split.
  - intros req Htok.
    assert (newRefreshToken <> "") as Hne by (rewrite Hr; apply encode_nonempty).
    rewrite (run_verifyJWT env _ _ _ _ Htok Hne). unfold authenticated_subject.
    rewrite Hak. destruct (jwt_decode newRefreshToken); [| reflexivity].
    destruct (jwt_signature_ok newRefreshToken ak) eqn:Hsig.
    + rewrite Hr in Hsig. apply signature_key in Hsig. congruence.
    + now rewrite andb_false_r.
  - intros req Htok.
    assert (accessToken <> "") as Hne by (rewrite Ha; apply encode_nonempty).
    rewrite (run_POST_refresh_token env _ _ _ _ Htok Hne). unfold accepted_subject.
    rewrite Hrk. destruct (jwt_decode accessToken); [| reflexivity].
    destruct (jwt_signature_ok accessToken rk) eqn:Hsig.
    + rewrite Ha in Hsig. apply signature_key in Hsig. congruence.
    + now rewrite andb_false_r.
Qed.

End Keyed.

End MoreLawful.

(** ** Changing the password *)

Lemma findById_updatePassword id i pw s :
  findById i (updatePassword id pw s) =
  (fun v => if String.eqb i id then set_password pw v else v) <$> findById i s.
Proof.
  induction s as [|u rest IH]; simpl; [reflexivity |].
  destruct (String.eqb_spec (_id u) id) as [E|E]; simpl.
  - destruct (String.eqb_spec (_id u) i) as [E'|E'].
    + simpl. assert (String.eqb i id = true) as -> by (apply String.eqb_eq; congruence).
      reflexivity.
    + assert (String.eqb i id = false) as -> by (apply String.eqb_neq; congruence).
      now destruct (findById i rest).
  - destruct (String.eqb_spec (_id u) i) as [E'|E']; [| exact IH].
    simpl. assert (String.eqb i id = false) as -> by (apply String.eqb_neq; congruence).
    reflexivity.
Qed.

Lemma updatePassword_same id s u pw :
  findById id s = Some u -> password u = pw -> updatePassword id pw s = s.
Proof.
  induction s as [|w rest IH]; simpl; [discriminate |].
  destruct (String.eqb (_id w) id).
  - intros [= ->] <-. now destruct u.
  - intros Hf Hp. now rewrite IH.
Qed.

Lemma slot_updatePassword id i pw s : slot i (updatePassword id pw s) = slot i s.
Proof.
  unfold slot. rewrite findById_updatePassword.
  destruct (findById i s) as [v|]; [| reflexivity]. simpl.
  now destruct (String.eqb i id).
Qed.

Section PasswordChangeProperties.

Context `{JwtCodec} `{Bcrypt} `{BcryptHash}.
Variable env : Env.

(** X20. A password change with a wrong old password is refused with 400,
    "Invalid old password", and nothing is written. *)
Theorem change_password_wrong_old_password req salt s identity u old hashed :
  user req = Some identity -> findById (_id identity) s = Some u ->
  body req !! "oldPassword" = Some old ->
  password u = Some hashed -> bcrypt_compare old hashed = false ->
  changeCurrentPassword req salt s = (Raised (ApiError 400 "Invalid old password"), s) /\
  status (errorHandler (ApiError 400 "Invalid old password")) = 400.
Proof.
  intros Hid Hu Hold Hhash Hcmp. split; [| reflexivity].
  unfold changeCurrentPassword, isPasswordCorrect.
  rewrite Hid. cbn [mbind option_bind]. rewrite Hu, Hold, Hhash. cbn [run].
  now rewrite Hcmp.
Qed.

Lemma accepted_subject_updatePassword id pw s tok now :
  accepted_subject env (updatePassword id pw s) tok now =
  match jwt_decode tok with
  | Some p => (fun v => if String.eqb (tok_id p) id then set_password pw v else v)
                <$> accepted_subject env s tok now
  | None => None
  end.
Proof.
  unfold accepted_subject.
  destruct (jwt_decode tok) as [p|]; [| now destruct (REFRESH_TOKEN_SECRET env)].
  destruct (REFRESH_TOKEN_SECRET env) as [key|]; [| reflexivity].
  destruct (_ && _ && _); [| reflexivity].
  rewrite findById_updatePassword.
  destruct (findById (tok_id p) s) as [v|]; [| reflexivity].
  cbn [fmap option_fmap option_map].
  destruct (String.eqb (tok_id p) id); cbn [set_password refreshToken];
    now destruct (strict_ne (Some tok) (refreshToken v)).
Qed.

Lemma updatePassword_keeps_sessions id pw s req now :
  (forall i, slot i (updatePassword id pw s) = slot i s) /\
  fst (run (POST_refresh_token env req now) (updatePassword id pw s)) =
    fst (run (POST_refresh_token env req now) s) /\
  fst (run (verifyJWT env req now) (updatePassword id pw s)) =
    fst (run (verifyJWT env req now) s).
Proof.
  split; [intros i; apply slot_updatePassword |]. split.
  - destruct (truthy (presented_refresh_token req)) eqn:Ht.
    + destruct (presented_refresh_token req) as [tok|] eqn:Htok; [| discriminate].
      apply truthy_Some in Ht. rewrite !(run_POST_refresh_token env _ _ _ _ Htok Ht).
      rewrite accepted_subject_updatePassword.
      destruct (accepted_subject env s tok now) as [v|] eqn:Hacc.
      * destruct (accepted_subject_inv env _ _ _ _ Hacc) as (_ & p & _ & _ & -> & _).
        simpl. destruct (String.eqb (tok_id p) id).
        -- change (issue_pair env (set_password pw v) now) with (issue_pair env v now).
           now destruct (issue_pair env v now) as [[a r]|].
        -- now destruct (issue_pair env v now) as [[a r]|].
      * now destruct (jwt_decode tok).
    + unfold POST_refresh_token, respond, asyncHandler, refreshAccessToken.
      unfold presented_refresh_token in Ht.
      destruct (js_or _ _) as [tok|]; [| reflexivity]. now rewrite Ht.
  - unfold verifyJWT.
    destruct (js_or _ _) as [tok|]; [| reflexivity].
    destruct (negb (truthy (Some tok))); [reflexivity |].
    rewrite !run_try_catch, !run_mbind.
    destruct (run (jwt_verify tok (ACCESS_TOKEN_SECRET env) now) (updatePassword id pw s))
      as [[p|e] s'] eqn:Hv.
    + assert (run (jwt_verify tok (ACCESS_TOKEN_SECRET env) now) s = (Returned p, s)) as ->.
      { revert Hv. unfold jwt_verify.
        destruct (jwt_decode tok); [| discriminate].
        destruct (ACCESS_TOKEN_SECRET env) as [key|]; [| discriminate].
        destruct (negb (truthy (Some key))); [discriminate |].
        destruct (negb (jwt_signature_ok tok key)); [discriminate |].
        destruct (exp p0 <=? now)%Z; [discriminate |]. now intros [= <- <-]. }
      assert (s' = updatePassword id pw s) as ->.
      { revert Hv. unfold jwt_verify.
        destruct (jwt_decode tok); [| discriminate].
        destruct (ACCESS_TOKEN_SECRET env) as [key|]; [| discriminate].
        destruct (negb (truthy (Some key))); [discriminate |].
        destruct (negb (jwt_signature_ok tok key)); [discriminate |].
        destruct (exp p0 <=? now)%Z; [discriminate |]. now intros [= <- <-]. }
      cbn [run mbind Db_bind bind]. rewrite findById_updatePassword.
      destruct (findById (tok_id p) s) as [v|]; [| reflexivity]. simpl.
      now destruct (String.eqb (tok_id p) id).
    + assert (run (jwt_verify tok (ACCESS_TOKEN_SECRET env) now) s = (Raised e, s)) as ->;
        [| reflexivity].
      revert Hv. unfold jwt_verify.
      destruct (jwt_decode tok) as [p|]; [| now intros [= <- <-]].
      destruct (ACCESS_TOKEN_SECRET env) as [key|]; [| now intros [= <- <-]].
      destruct (negb (truthy (Some key))); [now intros [= <- <-] |].
      destruct (negb (jwt_signature_ok tok key)); [now intros [= <- <-] |].
      destruct (exp p <=? now)%Z; [now intros [= <- <-] | discriminate].
Qed.

Lemma change_password_store req now salt s :
  snd (POST_change_password env req now salt s) = s \/
  exists id pw, snd (POST_change_password env req now salt s) = updatePassword id pw s.
Proof.
  unfold POST_change_password. rewrite run_verifyJWT_cases.
  destruct (presented_access_token req) as [tok|]; [| now left].
  destruct (truthy (Some tok)); [| now left].
  destruct (authenticated_subject env s tok now) as [identity|]; [| now left].
  unfold changeCurrentPassword. cbn [user attach_user body mbind option_bind].
  destruct (findById (_id identity) s) as [u|]; [| now left].
  destruct (body req !! "oldPassword") as [old|]; [| now left].
  destruct (run (isPasswordCorrect u old) s) as [[[|]|e] s']; cbn [negb]; try now left.
  destruct (pre_save u (set_password (body req !! "newPassword") u) salt) as [doc|e];
    [| now left].
  right. now exists (_id u), (password doc).
Qed.

(** X21. A password change ends no session: whatever the change-password
    route did, every refresh-token slot is as before, every refresh request
    gets the answer it would have got, and the guard answers every request
    as before. *)
Theorem password_change_keeps_sessions reqC nowC salt s req now :
  (forall i, slot i (snd (POST_change_password env reqC nowC salt s)) = slot i s) /\
  fst (run (POST_refresh_token env req now) (snd (POST_change_password env reqC nowC salt s))) =
    fst (run (POST_refresh_token env req now) s) /\
  fst (run (verifyJWT env req now) (snd (POST_change_password env reqC nowC salt s))) =
    fst (run (verifyJWT env req now) s).
Proof.
  destruct (change_password_store reqC nowC salt s) as [-> | (id & pw & ->)].
  - repeat split.
  - apply updatePassword_keeps_sessions.
Qed.

(** X22. Every request to the change-password route gets a response, with
    status 200, 400, 401 or 500; unless the status is 200 nothing is
    written, and a request without a [newPassword] is never answered
    200. *)
Theorem change_password_outcomes req now salt s :
  exists r s',
    POST_change_password env req now salt s = (Returned r, s') /\
    (status r = 200 \/ status r = 400 \/ status r = 401 \/ status r = 500) /\
    (status r <> 200 -> s' = s) /\
    (body req !! "newPassword" = None -> status r <> 200).
Proof.
  unfold POST_change_password. rewrite run_verifyJWT_cases.
  assert (forall e : Thrown, e = no_token \/ e = token_failed ->
            exists r s', (Returned (errorHandler e), s) = (Returned r, s') /\
              (status r = 200 \/ status r = 400 \/ status r = 401 \/ status r = 500) /\
              (status r <> 200 -> s' = s) /\
              (body req !! "newPassword" = None -> status r <> 200)) as H401.
  { intros e [-> | ->]; eexists _, _; (split; [reflexivity |]); simpl;
      (split; [auto |]); split; [reflexivity | discriminate | reflexivity | discriminate]. }
  destruct (presented_access_token req) as [tok|]; [| apply H401; now left].
  destruct (truthy (Some tok)); [| apply H401; now left].
  destruct (authenticated_subject env s tok now) as [identity|]; [| apply H401; now right].
  unfold changeCurrentPassword. cbn [user attach_user body mbind option_bind].
  destruct (findById (_id identity) s) as [u|];
    [| eexists _, _; split; [reflexivity |]; simpl; split; [auto 6 |];
       split; [reflexivity | discriminate]].
  destruct (body req !! "oldPassword") as [old|];
    [| eexists _, _; split; [reflexivity |]; simpl; split; [auto 6 |];
       split; [reflexivity | discriminate]].
  unfold isPasswordCorrect.
  destruct (password u) as [hashed|] eqn:Hpw; cbn [run];
    [| eexists _, _; split; [reflexivity |]; simpl; split; [auto 6 |];
       split; [reflexivity | discriminate]].
  destruct (bcrypt_compare old hashed); cbn [negb];
    [| eexists _, _; split; [reflexivity |]; simpl; split; [auto 6 |];
       split; [reflexivity | discriminate]].
  unfold pre_save. cbn [password set_password]. rewrite Hpw.
  destruct (body req !! "newPassword") as [new|].
  - case_bool_decide; eexists _, _; (split; [reflexivity |]); simpl;
      (split; [auto |]); (split; [intros; lia | discriminate]).
  - rewrite bool_decide_eq_false_2 by discriminate.
    eexists _, _. split; [reflexivity |]. simpl. split; [auto 6 |].
    split; [reflexivity | discriminate].
Qed.

Section WithLawfulHash.

Context `{!BcryptLawful}.

(** X23. A password change with the right old password is answered 200 and
    leaves the user's other fields and every other user as before.  When the
    new password is any string other than the stored hash itself (the empty
    string too), a hash of it is stored and the new password verifies
    against it.  When it is the stored hash string, the document counts as
    unmodified: nothing is hashed, the store is as before, and the stored
    hash is still the one of the old password. *)
Theorem change_password_installs_new_password req salt s identity u old hashed new :
  user req = Some identity -> findById (_id identity) s = Some u ->
  body req !! "oldPassword" = Some old ->
  password u = Some hashed -> bcrypt_compare old hashed = true ->
  body req !! "newPassword" = Some new ->
  exists r s1 v,
    changeCurrentPassword req salt s = (Returned r, s1) /\ status r = 200 /\
    findById (_id u) s1 = Some v /\
    v = set_password (password v) u /\
    (forall i, i <> _id u -> findById i s1 = findById i s) /\
    (new <> hashed ->
       password v = Some (bcrypt_hash new 12 salt) /\
       run (isPasswordCorrect v new) s1 = (Returned true, s1)) /\
    (new = hashed ->
       s1 = s /\ v = u /\
       run (isPasswordCorrect v old) s1 = (Returned true, s1)).
Proof.
  intros Hid Hu Hold Hhash Hcmp Hnew.
  pose proof (findById_id _ _ _ Hu) as Hident.
  assert (findById (_id u) s = Some u) as Hu' by (rewrite Hident; exact Hu).
  assert (forall i pw, i <> _id u ->
            findById i (updatePassword (_id u) pw s) = findById i s) as Hother.
  { intros i pw Hne. rewrite findById_updatePassword.
    destruct (String.eqb_spec i (_id u)); [congruence |].
    now destruct (findById i s). }
  unfold changeCurrentPassword, isPasswordCorrect, pre_save.
  rewrite Hid. cbn [mbind option_bind]. rewrite Hu, Hold, Hhash. cbn [run].
  rewrite Hcmp, Hnew. cbn [negb password set_password]. rewrite ?Hhash.
  destruct (String.eqb_spec new hashed) as [-> | Hmod].
  - rewrite bool_decide_eq_true_2 by reflexivity.
    cbn [password set_password].
    assert (updatePassword (_id u) (Some hashed) s = s) as ->
      by (apply updatePassword_same with (u := u); assumption).
    exists (mkResponse 200 [] [] (ApiResponse 200 NoData "Password changed successfully")), s, u.
    split; [reflexivity |]. split; [reflexivity |]. split; [exact Hu' |].
    split; [now destruct u |]. split; [reflexivity |].
    split; [congruence |]. intros _. rewrite Hhash. cbn [run]. now rewrite Hcmp.
  - rewrite bool_decide_eq_false_2 by congruence.
    eexists _, _, (set_password (Some (bcrypt_hash new 12 salt)) u).
    split; [reflexivity |]. split; [reflexivity |].
    split; [rewrite findById_updatePassword, Hu'; simpl; now rewrite String.eqb_refl |].
    split; [reflexivity |].
    split; [intros i Hne; now apply Hother |].
    split; [| congruence]. intros _.
    split; [reflexivity |]. cbn [run password set_password]. now rewrite compare_hash.
Qed.

End WithLawfulHash.

End PasswordChangeProperties.

(** ** The public id of a stored image *)

Lemma lacks_app c a b : lacks c (a +:+ b) = lacks c a && lacks c b.
Proof.
  induction a as [|d a IH]; simpl; [reflexivity |].
  rewrite IH. now rewrite andb_assoc.
Qed.

Lemma split_lacks c s : lacks c s = true -> split c s = [s].
Proof.
  induction s as [|d s IH]; simpl; [reflexivity |].
  intros Hl. apply andb_true_iff in Hl as [Hd Hs].
  apply negb_true_iff in Hd. rewrite Hd, (IH Hs). reflexivity.
Qed.

(** The piece after the last separator. *)
Lemma split_last c a b :
  lacks c b = true ->
  exists pieces, pieces <> [] /\ split c (a +:+ String c b) = (pieces ++ [b])%list.
Proof.
  intros Hb. induction a as [|d a (pieces & Hne & IH)]; simpl.
  - rewrite Ascii.eqb_refl, (split_lacks _ _ Hb). now exists [EmptyString].
  - rewrite IH. destruct (Ascii.eqb d c).
    + now exists (EmptyString :: pieces).
    + destruct pieces as [|piece pieces]; [congruence |].
      now exists (String d piece :: pieces).
Qed.

(** The piece before the first separator. *)
Lemma split_head c a b :
  lacks c a = true -> head (split c (a +:+ String c b)) = Some a.
Proof.
  induction a as [|d a IH]; simpl.
  - now rewrite Ascii.eqb_refl.
  - intros Hl. apply andb_true_iff in Hl as [Hd Ha].
    apply negb_true_iff in Hd. rewrite Hd.
    specialize (IH Ha). now destruct (split c (a +:+ String c b)); [| injection IH as ->].
Qed.

Lemma split_pieces_lack c d s : lacks d s = true -> Forall (fun piece => lacks d piece = true) (split c s).
Proof.
  induction s as [|e s IH]; simpl; intros Hl.
  - now constructor.
  - apply andb_true_iff in Hl as [He Hs]. specialize (IH Hs).
    destruct (Ascii.eqb e c).
    + now constructor.
    + destruct (split c s) as [|piece pieces]; [repeat constructor; simpl; now rewrite He |].
      inversion IH; subst. constructor; [simpl; now rewrite He | assumption].
Qed.

Lemma split_pieces_lack_separator c s : Forall (fun piece => lacks c piece = true) (split c s).
Proof.
  induction s as [|e s IH]; simpl.
  - now constructor.
  - destruct (Ascii.eqb e c) eqn:E.
    + now constructor.
    + destruct (split c s) as [|piece pieces]; [repeat constructor; simpl; now rewrite E |].
      inversion IH; subst. constructor; [simpl; now rewrite E | assumption].
Qed.

(** X24. The public id computed from an image URL is the file name without
    its extension: for a URL that ends in [/name.ext], where [name] has no
    slash and no dot and [ext] no slash, the result is [name], whatever
    precedes the last slash; a folder in the path is dropped. *)
Theorem public_id_is_bare_file_name base name ext :
  lacks "/" name = true -> lacks "." name = true -> lacks "/" ext = true ->
  currentPublicId (Some (base +:+ String "/" (name +:+ String "." ext))) = Some name.
Proof.
  intros Hn Hd He. unfold currentPublicId.
  assert (truthy (Some (base +:+ String "/" (name +:+ String "." ext))) = true) as ->.
  { apply truthy_Some. now destruct base. }
  assert (lacks "/" (name +:+ String "." ext) = true) as Hseg.
  { rewrite lacks_app, Hn. simpl. exact He. }
  destruct (split_last "/" base _ Hseg) as (pieces & _ & ->).
  rewrite last_snoc. cbn [mbind option_bind]. now apply split_head.
Qed.

(** X25. The public id never contains a slash or a dot, so an image stored
    under a folder or under a name with dots cannot be named by it; and
    there is none for a user without an image URL. *)
Theorem public_id_has_no_slash_or_dot url :
  (forall id, currentPublicId url = Some id -> lacks "/" id = true /\ lacks "." id = true) /\
  (truthy url = false -> currentPublicId url = None).
Proof.
  split.
  - intros id. unfold currentPublicId.
    destruct url as [u|]; [| discriminate].
    destruct (truthy (Some u)); [| discriminate].
    destruct (last (split "/" u)) as [segment|] eqn:Hlast; [| discriminate].
    cbn [mbind option_bind]. intros Hhead.
    assert (lacks "/" segment = true) as Hseg.
    { pose proof (split_pieces_lack_separator "/" u) as Hall.
      rewrite Forall_forall in Hall. apply Hall. now apply last_Some_elem_of. }
    pose proof (split_pieces_lack "." "/" segment Hseg) as Hall1.
    pose proof (split_pieces_lack_separator "." segment) as Hall2.
    destruct (split "." segment) as [|piece pieces]; [discriminate |].
    injection Hhead as <-. inversion Hall1; inversion Hall2; subst. now split.
  - unfold currentPublicId. destruct url as [u|]; [| reflexivity]. now intros ->.
Qed.

(** ** Errors that are not [ApiError]s *)

(** X26. An error that is not an [ApiError] is answered 400 or 500 and
    nothing else: 400 when it carries any non-zero [statusCode] of its own
    or is a Mongoose error, 500 otherwise; its own status code is never the
    status of the response unless it is 400. *)
Theorem foreign_errors_are_answered_400_or_500 e :
  (status (errorHandler_foreign e) = 400 \/ status (errorHandler_foreign e) = 500) /\
  (status (errorHandler_foreign e) = 400 <->
     truthy_number (foreign_statusCode e) = true \/ foreign_mongoose e = true) /\
  (forall code, foreign_statusCode e = Some code -> code <> 0 -> code <> 400 ->
     status (errorHandler_foreign e) <> code) /\
  (forall msg, status (errorHandler (MongooseError msg)) =
               status (errorHandler_foreign (mkForeign None true (Some msg))) /\
               forall name, status (errorHandler (JsError name msg)) =
                            status (errorHandler_foreign (mkForeign None false (Some msg)))).
Proof.
  unfold errorHandler_foreign, to_ApiError. cbn [errorHandler status].
  split; [| split; [| split]].
  - destruct (truthy_number _ || _); auto.
  - destruct (truthy_number (foreign_statusCode e)), (foreign_mongoose e); cbn [orb];
      split; auto; try lia; intros [|]; discriminate.
  - intros code Hc Hz H400. rewrite Hc. cbn [truthy_number].
    assert ((code =? 0)%Z = false) as -> by (apply Z.eqb_neq; exact Hz).
    cbn [negb orb]. congruence.
  - intros msg. split; [reflexivity | intros name; reflexivity].
Qed.

(** ** The current user *)

Section CurrentUser.

Context `{JwtCodec} `{Bcrypt}.
Variable env : Env.

(** X27. The current-user route never writes, and answers 200 or 401: on
    200 the body is the stored document of the token's subject without
    password and refresh token, on 401 no user data is sent. *)
Theorem current_user_is_the_token_subject req now s :
  exists r,
    run (GET_current_user env req now) s = (Returned r, s) /\
    (status r = 200 \/ status r = 401) /\
    (status r = 200 ->
     exists tok p stored,
       presented_access_token req = Some tok /\ jwt_decode tok = Some p /\
       findById (tok_id p) s = Some stored /\
       json r = ApiResponse 200 (UserData (select_public stored)) "User fetched successfully") /\
    (status r = 401 -> json r = ErrorEnvelope 401).
Proof.
  unfold GET_current_user, respond, asyncHandler.
  rewrite run_try_catch, run_mbind, run_verifyJWT_cases.
  destruct (presented_access_token req) as [tok|].
  - destruct (truthy (Some tok)).
    + unfold authenticated_subject.
      destruct (jwt_decode tok) as [p|] eqn:Hd;
        [| eexists; split; [reflexivity |]; simpl; split; [auto |];
           split; [discriminate | reflexivity]].
      destruct (ACCESS_TOKEN_SECRET env);
        [| eexists; split; [reflexivity |]; simpl; split; [auto |];
           split; [discriminate | reflexivity]].
      destruct (_ && _ && _);
        [| eexists; split; [reflexivity |]; simpl; split; [auto |];
           split; [discriminate | reflexivity]].
      destruct (findById (tok_id p) s) as [stored|] eqn:Hs;
        [| eexists; split; [reflexivity |]; simpl; split; [auto |];
           split; [discriminate | reflexivity]].
      eexists. split; [reflexivity |]. simpl. split; [auto |].
      split; [| discriminate]. intros _. exists tok, p, stored. repeat split; auto.
    + eexists; split; [reflexivity |]; simpl; split; [auto |];
        split; [discriminate | reflexivity].
  - eexists; split; [reflexivity |]; simpl; split; [auto |];
      split; [discriminate | reflexivity].
Qed.

End CurrentUser.

(** ** The reference codec and hash obey the further laws *)
Module RefLaws.
Import RefCodec RefCodecLaws RefHash.

#[export] Instance keyed : JwtKeyed.
Proof.
  split. intros p key key'. cbn [jwt_signature_ok jwt_encode codec].
  unfold signature_ok, encode. rewrite get_put_str.
  intros Heq. apply String.eqb_eq in Heq. congruence.
Qed.

#[export] Instance hash_lawful : BcryptLawful.
Proof. split. intros pw rounds salt. apply String.eqb_refl. Qed.

End RefLaws.

(** ** The further properties on the small deployment *)
Module MoreFacts.
Import MoreScenario RefCodecLaws RefLaws.

Lemma guard_refuses_stale_cookie :
  status (errorHandler token_failed) = 401 /\
  (truthy (presented_access_token stale_cookie) = false /\ token_failed = no_token \/
   truthy (presented_access_token stale_cookie) = true /\ token_failed = token_failed).
Proof.
  apply (proj2 (guard_reads_only_and_refuses_with_401 env0 stale_cookie 1500 store1)).
  vm_compute. reflexivity.
Defined.

Lemma guard_accepts_T1a :
  exists key p stored,
    ACCESS_TOKEN_SECRET env0 = Some key /\ key <> "" /\
    jwt_decode T1a = Some p /\ jwt_signature_ok T1a key = true /\ 1500 < exp p /\
    findById (tok_id p) store1 = Some stored /\
    select_public alice = select_public stored.
Proof.
  apply (proj1 (guard_accepts_iff env0 (with_bearer T1a) 1500 store1 T1a (select_public alice)
                  eq_refl ltac:(vm_compute; discriminate))).
  vm_compute. reflexivity.
Defined.

Lemma stale_cookie_shadows_good_header :
  run (verifyJWT env0
         (mkRequest (cookies stale_cookie) (body stale_cookie) (headers (with_bearer T1a))
            (user stale_cookie)) 1500) store1 =
  (Raised token_failed, store1).
Proof.
  apply (guard_cookie_shadows_header env0 stale_cookie 1500 store1 "stale").
  - reflexivity.
  - discriminate.
  - reflexivity.
Defined.

Lemma refresh_T1r_conditions :
  exists key p u,
    REFRESH_TOKEN_SECRET env0 = Some key /\ key <> "" /\
    jwt_decode T1r = Some p /\ jwt_signature_ok T1r key = true /\ 1060 < exp p /\
    findById (tok_id p) store1 = Some u /\ refreshToken u = Some T1r /\
    issue_pair env0 u 1060 <> None.
Proof.
  apply (proj1 (refresh_succeeds_iff env0 (refresh_with T1r) 1060 store1 T1r
                  eq_refl ltac:(vm_compute; discriminate))).
  eexists _, _. split; vm_compute; reflexivity.
Defined.

Lemma refresh_outcomes_T1r :
  exists r s',
    run (POST_refresh_token env0 (refresh_with T1r) 1060) store1 = (Returned r, s') /\
    (status r = 200 \/ status r = 401 \/ status r = 500) /\
    (status r = 401 <-> truthy (presented_refresh_token (refresh_with T1r)) = false) /\
    (status r <> 200 -> s' = store1).
Proof. exact (refresh_outcomes env0 (refresh_with T1r) 1060 store1). Defined.

Lemma login_outcomes_wrong_password :
  exists r s',
    run (POST_login env0 login_alice_wrong_password 1000) store0 = (Returned r, s') /\
    (status r = 200 \/ status r = 400 \/ status r = 404 \/ status r = 500) /\
    (status r <> 200 -> s' = store0).
Proof. exact (login_outcomes env0 login_alice_wrong_password 1000 store0). Defined.

Lemma login_alice_delivers_tokens :
  exists accessToken newRefreshToken id,
    body_tokens (json (logged_in env0 (select_public alice) T1a T1r)) =
      Some (accessToken, newRefreshToken) /\
    set_cookies (logged_in env0 (select_public alice) T1a T1r) =
      [("accessToken", accessToken, cookie_options env0);
       ("refreshToken", newRefreshToken, cookie_options env0)] /\
    cleared_cookies (logged_in env0 (select_public alice) T1a T1r) = [] /\
    slot id store1 = Some (Some newRefreshToken) /\
    httpOnly (cookie_options env0) = true /\
    (secure (cookie_options env0) = true <-> NODE_ENV env0 = Some "production").
Proof.
  apply (tokens_delivered_in_cookies_and_body env0 login_alice 1000 store0).
  - left. vm_compute. reflexivity.
  - reflexivity.
Defined.

Lemma token_generation_unknown_user :
  run (generateAccessAndRefreshToken env0 "nobody" 1000) store0 =
  (Raised generation_failed, store0).
Proof.
  apply (proj1 (token_generation_outcomes env0 "nobody" 1000 store0)). reflexivity.
Defined.



Lemma refresh_survives_logout_alice :
  exists s2,
    interleave [true; false; false; true; true]
      (POST_refresh_token env0 (refresh_with T1r) 1060)
      (POST_logout env0 (with_bearer T1a) 1060) store1 =
    (Ret (refreshed env0 T2a T2r), Ret (logged_out env0), s2) /\
    slot "u1" s2 = Some (Some T2r).
Proof.
  apply (refresh_in_flight_survives_logout env0 (refresh_with T1r) (with_bearer T1a) store1
           T1r T1a 1060 1060 (set_refreshToken (Some T1r) alice) (select_public alice) T2a T2r).
  - reflexivity.
  - vm_compute. discriminate.
  - vm_compute. reflexivity.
  - reflexivity.
  - reflexivity.
  - vm_compute. discriminate.
  - vm_compute. reflexivity.
  - reflexivity.
Defined.

(** Alice logs in again at second 2000; her token of second 1000 is
    refused from then on. *)
Lemma second_login_refuses_T1r :
  exists r2,
    run (POST_refresh_token env0 (refresh_with T1r) 2100) store3 = (Returned r2, store3) /\
    status r2 <> 200.
Proof.
  apply (login_supersedes_earlier_tokens env0 login_alice 2000 store1 (select_public alice)
           T3a T3r store3) with (tok := T1r).
  - vm_compute. reflexivity.
  - reflexivity.
  - vm_compute. discriminate.
  - intros p. unfold T1r. rewrite decode_encode. now intros [= <-].
Defined.

Lemma T2r_accepted_after_rotation :
  exists r2 s2,
    run (POST_refresh_token env0 (refresh_with T2r) 5000) store2 = (Returned r2, s2) /\
    status r2 = 200.
Proof.
  apply (rotated_token_is_accepted env0 (refresh_with T1r) store1 1060 T1r T2a T2r store2
           864000 (refresh_with T2r) 5000).
  - reflexivity.
  - vm_compute. discriminate.
  - vm_compute. reflexivity.
  - reflexivity.
  - lia.
  - reflexivity.
Defined.

Lemma T1r_accepted_after_login :
  exists r2 s2,
    run (POST_refresh_token env0 (refresh_with T1r) 5000) store1 = (Returned r2, s2) /\
    status r2 = 200.
Proof.
  apply (login_token_refreshes env0 login_alice store0 1000
           (logged_in env0 (select_public alice) T1a T1r) store1 T1a T1r 864000
           (refresh_with T1r) 5000).
  - vm_compute. reflexivity.
  - reflexivity.
  - reflexivity.
  - reflexivity.
  - lia.
  - reflexivity.
Defined.

Lemma T1a_claims :
  exists ttl, ACCESS_TOKEN_EXPIRY env0 = Some ttl /\
    jwt_decode T1a =
      Some (mkPayload (_id alice) (Some (email alice)) (Some (username alice))
              (Some (fullname alice)) 1000 (1000 + ttl)).
Proof.
  apply (proj1 (tokens_carry_their_claims env0 alice 1000 store0) T1a). reflexivity.
Defined.

Lemma shared_secret_refresh_token_as_access_token :
  run (verifyJWT env_shared (with_bearer T1r_shared) 50000) store0 =
  (Returned (attach_user (select_public alice) (with_bearer T1r_shared)), store0).
Proof.
  apply (shared_secret_refresh_token_authenticates env_shared alice 1000
           (jwt_encode (mkPayload "u1" (Some "alice@example.com") (Some "alice") (Some "Alice")
                          1000 1900) "one-secret")
           T1r_shared 864000 store0 alice).
  - reflexivity.
  - reflexivity.
  - reflexivity.
  - lia.
  - reflexivity.
  - vm_compute. reflexivity.
Defined.

Lemma distinct_secrets_T1r_T1a :
  (forall req, presented_access_token req = Some T1r ->
     run (verifyJWT env0 req 1500) store1 = (Raised token_failed, store1)) /\
  (forall req, presented_refresh_token req = Some T1a ->
     run (POST_refresh_token env0 req 1500) store1 =
       (Returned (errorHandler refresh_failed), store1)).
Proof.
  apply (distinct_secrets_separate_token_kinds env0 alice 1000 T1a T1r store1 1500).
  - reflexivity.
  - discriminate.
Defined.

Lemma change_password_alice_wrong_old :
  changeCurrentPassword (change_password "letmein" "N3wSecret!") "salt" store1 =
    (Raised (ApiError 400 "Invalid old password"), store1) /\
  status (errorHandler (ApiError 400 "Invalid old password")) = 400.
Proof.
  apply (change_password_wrong_old_password (change_password "letmein" "N3wSecret!") "salt"
           store1 (select_public alice) (set_refreshToken (Some T1r) alice) "letmein"
           "$2b$12$Secret123*").
  - reflexivity.
  - reflexivity.
  - reflexivity.
  - reflexivity.
  - reflexivity.
Defined.

Lemma change_password_route_without_new :
  exists r s',
    POST_change_password env0 (with_cookie "accessToken" T1a) 1500 "salt" store1 =
      (Returned r, s') /\
    (status r = 200 \/ status r = 400 \/ status r = 401 \/ status r = 500) /\
    (status r <> 200 -> s' = store1) /\
    (body (with_cookie "accessToken" T1a) !! "newPassword" = None -> status r <> 200).
Proof. exact (change_password_outcomes env0 (with_cookie "accessToken" T1a) 1500 "salt" store1). Defined.

Lemma change_password_alice :
  exists r s1 v,
    changeCurrentPassword (change_password "Secret123*" "") "salt" store1 = (Returned r, s1) /\
    status r = 200 /\
    findById (_id (set_refreshToken (Some T1r) alice)) s1 = Some v /\
    v = set_password (password v) (set_refreshToken (Some T1r) alice) /\
    (forall i, i <> _id (set_refreshToken (Some T1r) alice) -> findById i s1 = findById i store1) /\
    ("" <> "$2b$12$Secret123*" ->
       password v = Some (bcrypt_hash "" 12 "salt") /\
       run (isPasswordCorrect v "") s1 = (Returned true, s1)) /\
    ("" = "$2b$12$Secret123*" ->
       s1 = store1 /\ v = set_refreshToken (Some T1r) alice /\
       run (isPasswordCorrect v "Secret123*") s1 = (Returned true, s1)).
Proof.
  apply (change_password_installs_new_password (change_password "Secret123*" "") "salt" store1
           (select_public alice) (set_refreshToken (Some T1r) alice) "Secret123*"
           "$2b$12$Secret123*" "").
  - reflexivity.
  - reflexivity.
  - reflexivity.
  - reflexivity.
  - reflexivity.
  - reflexivity.
Defined.

(** The one new password that is not installed: the stored hash string
    itself.  The answer is 200 and the store is as it was. *)
Example change_password_to_stored_hash :
  exists r,
    changeCurrentPassword (change_password "Secret123*" "$2b$12$Secret123*") "salt" store1 =
      (Returned r, store1) /\
    status r = 200.
Proof. eexists. split; vm_compute; reflexivity. Qed.

Lemma avatar_public_id : currentPublicId (Some avatar_url) = Some "abc123".
Proof.
  exact (public_id_is_bare_file_name avatar_folder "abc123" "jpg" eq_refl eq_refl eq_refl).
Defined.

Lemma avatar_public_id_has_no_folder :
  lacks "/" "abc123" = true /\ lacks "." "abc123" = true.
Proof.
  apply (proj1 (public_id_has_no_slash_or_dot (Some avatar_url)) "abc123").
  vm_compute. reflexivity.
Defined.

Lemma payload_too_large_is_answered_400 :
  status (errorHandler_foreign payload_too_large) <> 413.
Proof.
  apply (proj1 (proj2 (proj2 (foreign_errors_are_answered_400_or_500 payload_too_large))) 413).
  - reflexivity.
  - discriminate.
  - discriminate.
Defined.

Lemma current_user_alice :
  exists r,
    run (GET_current_user env0 (with_bearer T1a) 1500) store1 = (Returned r, store1) /\
    (status r = 200 \/ status r = 401) /\
    (status r = 200 ->
     exists tok p stored,
       presented_access_token (with_bearer T1a) = Some tok /\ jwt_decode tok = Some p /\
       findById (tok_id p) store1 = Some stored /\
       json r = ApiResponse 200 (UserData (select_public stored)) "User fetched successfully") /\
    (status r = 401 -> json r = ErrorEnvelope 401).
Proof. exact (current_user_is_the_token_subject env0 (with_bearer T1a) 1500 store1). Defined.

End MoreFacts.
